(** * OpenLLM: lazy model handles over a model store

    A shallow embedding of [src/openllm/_llm.py] (the [LLM] base class, the
    module-level [import_model] and [TaskType]) and of
    [src/openllm/models/chatglm/modeling_chatglm.py] (the [ChatGLM] family).

    Python objects are embedded as follows.
    - Keyword dictionaries (keyword arguments, [import_kwargs], [custom_objects]) are
      finite maps [gmap string value]: a Python dict has one value per key,
      and nothing below depends on iteration order.
    - The collaborators that are not part of the repository (the BentoML
      model store, the transformers loaders, [openllm.utils.generate_tags],
      [os.environ], torch) are the operations of the class [Backend] over an
      abstract [World].
    - Methods run in a state-and-exception monad that also returns the list
      of calls made to the collaborators, in order.  State changes made
      before a [raise] are kept, as in Python. *)

From Stdlib Require Import String Ascii ZArith List Bool Lia.
From Stdlib Require QArith_base.
From stdpp Require Import base option list gmap strings fin_maps.

Local Open Scope string_scope.
Local Open Scope list_scope.

(** ** Values and keyword dictionaries *)

(** The Python values that travel through the wrapper.  Models, tokenizers
    and tensors are opaque objects; instances of
    [transformers.PretrainedConfig] are kept apart because [import_model]
    tests for them with [isinstance]. *)
Inductive value : Type :=
| VNone
| VBool (b : bool)
| VInt (n : Z)
| VStr (s : string)
| VPretrainedConfig (id : N)
| VObj (id : N).

#[global] Instance value_eq_dec : EqDecision value.
Proof. solve_decision. Defined.

(** A Python [dict] with string keys. *)
Abbreviation dict := (gmap string value).

(** [s[n:]] *)
Fixpoint str_drop (n : nat) (s : string) : string :=
  match n, s with
  | O, _ => s
  | S n', String _ s' => str_drop n' s'
  | S _, EmptyString => EmptyString
  end.

(** [s.startswith(p)] *)
Fixpoint startswith (p s : string) : bool :=
  match p, s with
  | EmptyString, _ => true
  | String a p', String b s' => Ascii.eqb a b && startswith p' s'
  | String _ _, EmptyString => false
  end.

Fixpoint str_map (f : ascii -> ascii) (s : string) : string :=
  match s with
  | EmptyString => EmptyString
  | String c s' => String (f c) (str_map f s')
  end.

(** [s.upper()], on ASCII text (model and task names are ASCII). *)
Definition ascii_upper (c : ascii) : ascii :=
  let n := nat_of_ascii c in
  if (97 <=? n)%nat && (n <=? 122)%nat then ascii_of_nat (n - 32) else c.

Definition upper (s : string) : string := str_map ascii_upper s.

(** [s.replace(a, b)] for single characters. *)
Definition replace_char (a b : ascii) (s : string) : string :=
  str_map (fun c => if Ascii.eqb c a then b else c) s.

(** ** Exceptions *)

Inductive exn : Type :=
| ForbiddenAttributeError (attr : string)
| OpenLLMException (msg : string)
| BentoMLException (msg : string)
| AssertionError (msg : string)
| AttributeError (attr : string)
| KeyError (key : string)
| TypeError (msg : string)
| OtherError (msg : string).

#[global] Instance exn_eq_dec : EqDecision exn.
Proof. solve_decision. Defined.

Inductive result (A : Type) : Type :=
| Ok (a : A)
| Raise (e : exn).
Arguments Ok {A} a.
Arguments Raise {A} e.

Definition is_Ok {A} (r : result A) : bool :=
  match r with Ok _ => true | Raise _ => false end.

(** ** Keyword arguments at a call site *)

(** Keyword unpacking of several dictionaries in one call: the same keyword
    given twice is a [TypeError] raised by the call itself, before the callee
    runs. *)
Fixpoint keywords (parts : list dict) : result dict :=
  match parts with
  | [] => Ok ∅
  | d :: rest =>
      match keywords rest with
      | Ok acc =>
          if decide (d ##ₘ acc) then Ok (d ∪ acc)
          else Raise (TypeError "got multiple values for keyword argument")
      | Raise e => Raise e
      end
  end.

(** ** The tokenizer-scope marker (lines 343-356 of [_llm.py]) *)

Definition _tokenizer_ : string := "_tokenizer_".

(** [{k[len("_tokenizer_"):]: v for k, v in d.items() if k.startswith("_tokenizer_")}] *)
Definition tokenizer_scoped (d : dict) : dict :=
  map_fold
    (fun k v acc =>
       if startswith _tokenizer_ k
       then <[str_drop (String.length _tokenizer_) k := v]> acc
       else acc)
    ∅ d.

(** [{k: v for k, v in d.items() if not k.startswith("_tokenizer_")}] *)
Definition model_scoped (d : dict) : dict :=
  filter (fun kv => startswith _tokenizer_ kv.1 = false) d.

(** Truth value of [self.import_kwargs]: [None] and the empty dict are false. *)
Definition dict_truthy (o : option dict) : bool :=
  match o with
  | Some d => negb (bool_decide (d = ∅))
  | None => false
  end.

(** The partition step of [LLM._bentomodel]: [kwds] is the dictionary returned
    by [generate_tags]; the result is [(tokenizer_kwds, kwds)].
    Merging two dict displays [a] then [b] is [b ∪ a]: the entries of [b] win. *)
Definition partition_kwds (import_kwargs : option dict) (kwds : dict)
  : dict * dict :=
  let tokenizer_kwds := tokenizer_scoped kwds in
  let kwds := model_scoped kwds in
  if dict_truthy import_kwargs then
    let ik := default ∅ import_kwargs in
    (tokenizer_kwds ∪ tokenizer_scoped ik, kwds ∪ model_scoped ik)
  else (tokenizer_kwds, kwds).

(** ** Task types (lines 45-70 of [_llm.py]) *)

Inductive TaskType : Type :=
| TEXT_GENERATION
| TEXT2TEXT_GENERATION.

(** [enum.auto()] numbers the members from 1. *)
Definition TaskType_value (t : TaskType) : nat :=
  match t with
  | TEXT_GENERATION => 1
  | TEXT2TEXT_GENERATION => 2
  end.

(** [TypeMeta.__getitem__] *)
Definition TaskType_getitem (key : string) : result TaskType :=
  let normalised := upper (replace_char "-" "_" key) in
  if String.eqb normalised "TEXT_GENERATION" then Ok TEXT_GENERATION
  else if String.eqb normalised "TEXT2TEXT_GENERATION" then Ok TEXT2TEXT_GENERATION
  else Raise (OpenLLMException "TaskType is not yet supported.").

Definition _return_tensors_to_framework_map : gmap string (list string) :=
  {[ "pt" := ["AutoModelForCausalLM"; "AutoModelForSeq2SeqLM"];
     "tf" := ["TFAutoModelForCausalLM"; "TFAutoModelForSeq2SeqLM"];
     "flax" := ["FlaxAutoModelForCausalLM"; "FlaxAutoModelForSeq2SeqLM"] ]}.

(** ** Store handles, calls and the collaborators *)

Module bentoml.
(** A [bentoml.Model]: what the wrapper reads off a store handle. *)
Record Model : Type := mkModel {
  tag : string;
  custom_objects : dict
}.
End bentoml.

(** The calls the repository's code makes to its collaborators, and the
    invocation of an import routine. *)
Inductive Call : Type :=
| C_generate_tags (pretrained : string) (kw : dict)
| C_get (tag : string)
| C_import_model (override : bool) (pretrained tag : string)
    (args : list value) (tokenizer_kwds kwds : dict)
| C_AutoConfig (model_name : string) (kw : dict)
| C_from_pretrained (auto_class model_name : string) (args : list value) (kw : dict)
| C_AutoTokenizer (model_name : string) (kw : dict)
| C_save_model (tag : string) (model : value) (custom_objects : dict)
| C_load_model (m : bentoml.Model) (args : list value) (kw : dict)
| C_method (name : string) (receiver : value) (args : list value).

(** The callee of a call, for reading traces. *)
Definition call_name (c : Call) : string :=
  match c with
  | C_generate_tags _ _ => "generate_tags"
  | C_get _ => "bentoml.transformers.get"
  | C_import_model _ _ _ _ _ _ => "import_model"
  | C_AutoConfig _ _ => "AutoConfig.from_pretrained"
  | C_from_pretrained auto_class _ _ _ => auto_class +:+ ".from_pretrained"
  | C_AutoTokenizer _ _ => "AutoTokenizer.from_pretrained"
  | C_save_model _ _ _ => "bentoml.transformers.save_model"
  | C_load_model _ _ _ => "load_model"
  | C_method name _ _ => name
  end.

(** One entry of the trace: the call, whether it returned (rather than
    raised), and whether it was made from inside an import routine. *)
Record Event : Type := Ev {
  call_of : Call;
  returned : bool;
  in_import : bool
}.

Definition within_import (e : Event) : Event :=
  Ev (call_of e) (returned e) true.

(** Store lookups and import calls made by the accessor itself. *)
Definition is_get (e : Event) : bool :=
  match call_of e with C_get _ => negb (in_import e) | _ => false end.
Definition is_import (e : Event) : bool :=
  match call_of e with C_import_model _ _ _ _ _ _ => negb (in_import e) | _ => false end.
(** Saves, wherever they are made. *)
Definition is_save (e : Event) : bool :=
  match call_of e with C_save_model _ _ _ => true | _ => false end.

(** How often calls of one kind occur in a trace. *)
Fixpoint count (p : Event -> bool) (tr : list Event) : nat :=
  match tr with
  | [] => 0
  | e :: tr' => (if p e then 1 else 0) + count p tr'
  end.

(** Modelled from the spec: [ModelSignature] and [ModelSignatureDict] come
    from [openllm._configuration], which is not among the sources.  A
    signature carries the four attributes [to_runner] reads
    (lines 465-468); the dict form may leave any of them out. *)
Record ModelSignature : Type := mkSignature {
  batchable : bool;
  batch_dim : value;
  input_spec : value;
  output_spec : value
}.

Record ModelSignatureDict : Type := mkSignatureDict {
  dict_batchable : option bool;
  dict_batch_dim : option value;
  dict_input_spec : option value;
  dict_output_spec : option value
}.

(** [ModelSignatureDict(batchable=b)] *)
Definition ModelSignatureDict_batchable (b : bool) : ModelSignatureDict :=
  mkSignatureDict (Some b) None None None.

(** Modelled from the spec: [openllm.LLMConfig] is not among the sources;
    these are the attributes of a configuration object that the two source
    files read. *)
Record LLMConfig : Type := mkConfig {
  __openllm_model_name__ : string;
  __openllm_start_name__ : string;
  __openllm_trust_remote_code__ : value;
  __pydantic_extra__ : option dict;
  use_half_precision : bool;
  retain_history : bool
}.

(** The collaborators, over an abstract state of the outside world.  Each
    operation returns its result (or the exception it raises) and the new
    state of the world. *)
Class Backend (World : Type) : Type := {
  (** [openllm.utils.generate_tags(pretrained, **kw)] *)
  generate_tags : string -> dict -> World -> result (string * dict) * World;
  (** [bentoml.transformers.get(tag)] *)
  transformers_get : string -> World -> result bentoml.Model * World;
  (** [bentoml.transformers.save_model(tag, model, custom_objects=...)] *)
  save_model : string -> value -> dict -> World -> result bentoml.Model * World;
  (** [bento_model.load_model] with positional and keyword arguments *)
  load_model : bentoml.Model -> list value -> dict -> World -> result value * World;
  (** [transformers.AutoConfig.from_pretrained(name, return_unused_kwargs=True, **kw)] *)
  AutoConfig_from_pretrained : string -> dict -> World -> result (value * dict) * World;
  (** [type(config) in transformers.MODEL_FOR_CAUSAL_LM_MAPPING] *)
  MODEL_FOR_CAUSAL_LM_MAPPING : value -> bool;
  (** [type(config) in transformers.MODEL_FOR_SEQ_TO_SEQ_CAUSAL_LM_MAPPING] *)
  MODEL_FOR_SEQ_TO_SEQ_CAUSAL_LM_MAPPING : value -> bool;
  (** [getattr(transformers, auto_class).from_pretrained(name, *args, **kw)] *)
  from_pretrained : string -> string -> list value -> dict -> World -> result value * World;
  (** [transformers.AutoTokenizer.from_pretrained(name, **kw)] *)
  AutoTokenizer_from_pretrained : string -> dict -> World -> result value * World;
  (** [os.environ] *)
  environ : World -> gmap string string;
  (** [torch.cuda.is_available()] and [platform.system()] *)
  cuda_is_available : World -> bool;
  platform_system : World -> string;
  (** a method call [receiver.name(args)] on an opaque object *)
  call_method : string -> value -> list value -> World -> result value * World;
  (** [inflection.camelize] *)
  camelize : string -> string;
  (** the defaults [ModelSignature] gives to attributes left out of a dict *)
  signature_defaults : ModelSignature
}.

(** ** Computations *)

(** [B]: code that only talks to the collaborators (the import routines). *)
Record B (World A : Type) : Type := MkB {
  runB : World -> result A * World * list Event
}.
Arguments MkB {World A} _.
Arguments runB {World A} _ _.

#[global] Instance B_ret {World} : MRet (B World) :=
  fun A a => MkB (fun w => (Ok a, w, [])).

#[global] Instance B_bind {World} : MBind (B World) :=
  fun A C k m =>
    MkB (fun w =>
           match runB m w with
           | (Ok a, w1, ev1) =>
               match runB (k a) w1 with
               | (r, w2, ev2) => (r, w2, ev1 ++ ev2)
               end
           | (Raise e, w1, ev1) => (Raise e, w1, ev1)
           end).

Definition raiseB {World A} (e : exn) : B World A :=
  MkB (fun w => (Raise e, w, [])).

(** A pure step that may raise. *)
Definition liftR {World A} (r : result A) : B World A :=
  MkB (fun w => (r, w, [])).

(** A call to a collaborator, recorded in the trace with its outcome. *)
Definition call {World A} (c : Call) (f : World -> result A * World) : B World A :=
  MkB (fun w => match f w with (r, w1) => (r, w1, [Ev c (is_Ok r) false]) end).

(** Running an import routine: the invocation, then the calls made inside. *)
Definition invoke {World A} (c : Call) (body : B World A) : B World A :=
  MkB (fun w =>
         match runB body w with
         | (r, w1, ev) => (r, w1, Ev c (is_Ok r) false :: map within_import ev)
         end).

(** Reading the outside world without calling into the store or the backend. *)
Definition observe {World A} (f : World -> A) : B World A :=
  MkB (fun w => (Ok (f w), w, [])).

(** ** Classes and instances *)

(** What a subclass of [LLM] declares.  [default_model] is [None] when the
    class has no such attribute at all ([LLMInterface] only annotates it),
    [Some None] when it is declared as Python's [None].
    [import_model_method] is the subclass override of the import step, called
    as [self.import_model(pretrained, tag, args, tokenizer_kwds=..., kwds)].
    An override is a computation over the store and the backend given its
    arguments: like the one of [ChatGLM], it does not read or write the
    instance. *)
Record LLMClass (World : Type) : Type := mkClass {
  __name__ : string;
  _implementation : string;
  default_model : option (option string);
  variants : list string;
  config_class : dict -> result LLMConfig;
  import_kwargs : option dict;
  import_model_method :
    option (string -> string -> list value -> dict -> dict -> B World bentoml.Model)
}.
Arguments mkClass {World}.
Arguments __name__ {World} _.
Arguments _implementation {World} _.
Arguments default_model {World} _.
Arguments variants {World} _.
Arguments config_class {World} _.
Arguments import_kwargs {World} _.
Arguments import_model_method {World} _.

(** An instance: the attributes [LLM.__init__] sets, the three memo slots
    (class-level default [None]), and every other instance attribute in
    [__dict__]. *)
Record LLM (World : Type) : Type := mkLLM {
  class_of : LLMClass World;
  config : LLMConfig;
  _pretrained : string;
  _args : list value;
  _kwargs : dict;
  __bentomodel__ : option bentoml.Model;
  __llm_model__ : value;
  __llm_tokenizer__ : value;
  __dict__ : gmap string value
}.
Arguments mkLLM {World}.
Arguments class_of {World} _.
Arguments config {World} _.
Arguments _pretrained {World} _.
Arguments _args {World} _.
Arguments _kwargs {World} _.
Arguments __bentomodel__ {World} _.
Arguments __llm_model__ {World} _.
Arguments __llm_tokenizer__ {World} _.
Arguments __dict__ {World} _.

Definition set__kwargs {World} (d : dict) (o : LLM World) : LLM World :=
  mkLLM (class_of o) (config o) (_pretrained o) (_args o) d
        (__bentomodel__ o) (__llm_model__ o) (__llm_tokenizer__ o) (__dict__ o).

Definition set___bentomodel__ {World} (bm : bentoml.Model) (o : LLM World) : LLM World :=
  mkLLM (class_of o) (config o) (_pretrained o) (_args o) (_kwargs o)
        (Some bm) (__llm_model__ o) (__llm_tokenizer__ o) (__dict__ o).

Definition set___llm_model__ {World} (m : value) (o : LLM World) : LLM World :=
  mkLLM (class_of o) (config o) (_pretrained o) (_args o) (_kwargs o)
        (__bentomodel__ o) m (__llm_tokenizer__ o) (__dict__ o).

Definition set___llm_tokenizer__ {World} (t : value) (o : LLM World) : LLM World :=
  mkLLM (class_of o) (config o) (_pretrained o) (_args o) (_kwargs o)
        (__bentomodel__ o) (__llm_model__ o) t (__dict__ o).

(** Storing an attribute that has no slot of its own. *)
Definition set_attribute {World} (attr : string) (v : value) (o : LLM World) : LLM World :=
  mkLLM (class_of o) (config o) (_pretrained o) (_args o) (_kwargs o)
        (__bentomodel__ o) (__llm_model__ o) (__llm_tokenizer__ o)
        (<[attr := v]> (__dict__ o)).

(** [M]: methods of an instance.  A method reads and updates [self] and the
    world, and returns its result together with the calls it made. *)
Record outcome (World A : Type) : Type := Outcome {
  res : result A;
  self_after : LLM World;
  world_after : World;
  events : list Event
}.
Arguments Outcome {World A}.
Arguments res {World A} _.
Arguments self_after {World A} _.
Arguments world_after {World A} _.
Arguments events {World A} _.

Record M (World A : Type) : Type := MkM {
  runM : LLM World -> World -> outcome World A
}.
Arguments MkM {World A} _.
Arguments runM {World A} _ _ _.

#[global] Instance M_ret {World} : MRet (M World) :=
  fun A a => MkM (fun s w => Outcome (Ok a) s w []).

#[global] Instance M_bind {World} : MBind (M World) :=
  fun A C k m =>
    MkM (fun s w =>
           match runM m s w with
           | Outcome (Ok a) s1 w1 ev1 =>
               match runM (k a) s1 w1 with
               | Outcome r s2 w2 ev2 => Outcome r s2 w2 (ev1 ++ ev2)
               end
           | Outcome (Raise e) s1 w1 ev1 => Outcome (Raise e) s1 w1 ev1
           end).

Definition raise {World A} (e : exn) : M World A :=
  MkM (fun s w => Outcome (Raise e) s w []).

Definition get_self {World} : M World (LLM World) :=
  MkM (fun s w => Outcome (Ok s) s w []).

Definition modify {World} (f : LLM World -> LLM World) : M World unit :=
  MkM (fun s w => Outcome (Ok tt) (f s) w []).

Definition liftB {World A} (b : B World A) : M World A :=
  MkM (fun s w => match runB b w with (r, w1, ev) => Outcome r s w1 ev end).

(** [try: body / except <catches>: handler]: the handler runs in the state
    the body left behind. *)
Definition try_except {World A} (body : M World A) (catches : exn -> bool)
    (handler : M World A) : M World A :=
  MkM (fun s w =>
         match runM body s w with
         | Outcome (Raise e) s1 w1 ev1 =>
             if catches e then
               match runM handler s1 w1 with
               | Outcome r s2 w2 ev2 => Outcome r s2 w2 (ev1 ++ ev2)
               end
             else Outcome (Raise e) s1 w1 ev1
         | Outcome (Ok a) s1 w1 ev1 => Outcome (Ok a) s1 w1 ev1
         end).

(** The classes an [except] clause names.  [BentoMLException] stands for
    the exceptions the store raises, [NotFound] among them. *)
Definition is_BentoMLException (e : exn) : bool :=
  match e with BentoMLException _ => true | _ => false end.

Definition is_KeyError (e : exn) : bool :=
  match e with KeyError _ => true | _ => false end.

(** ** Attribute writes (lines 149-156 and 230-238) *)

Definition _reserved_namespace : list string :=
  ["default_model"; "variants"; "config_class"; "model"; "tokenizer"; "import_kwargs"].

(** The names [LLM] declares with [@property] and no setter
    (lines 241-412). *)
Definition properties : list string :=
  ["llm_type"; "identifying_params"; "_bentomodel"; "tag"; "model"; "tokenizer"].

(** [object.__setattr__], reached through [super()]: a property without a
    setter rejects the write; any other name is stored on the instance. *)
Definition object_setattr_guard (attr : string) : result unit :=
  if bool_decide (attr ∈ properties) then Raise (AttributeError attr)
  else Ok tt.

(** The test of [LLM.__setattr__], then the one of the setter it delegates to. *)
Definition setattr_guard (attr : string) : result unit :=
  if bool_decide (attr ∈ _reserved_namespace) then Raise (ForbiddenAttributeError attr)
  else object_setattr_guard attr.

(** [LLM.__setattr__(self, attr, value)]; [store] is the effect of keeping
    [value] under [attr] on the instance. *)
Definition __setattr__ {World} (attr : string) (store : LLM World -> LLM World)
  : M World unit :=
  liftB (liftR (setattr_guard attr));; modify store.

(** An assignment [self.attr = v] to an attribute without a slot of its own. *)
Definition assign {World} (attr : string) (v : value) : M World unit :=
  __setattr__ attr (set_attribute attr v).

Section Wrapper.
Context {World : Type} {backend : Backend World}.

(** ** Construction (lines 250-333) *)

(** Truth value of a string or [None]. *)
Definition str_truthy (o : option string) : bool :=
  match o with
  | Some s => negb (String.eqb s "")
  | None => false
  end.

(** The name of the per-family environment variable. *)
Definition pretrained_envvar (cfg : LLMConfig) : string :=
  "OPENLLM_" +:+ upper (__openllm_model_name__ cfg) +:+ "_PRETRAINED".

(** Lines 313-321: the configuration and the keyword arguments kept for
    the model. *)
Definition init_config (cls : LLMClass World) (llm_config : option LLMConfig)
    (kwargs : dict) : result (LLMConfig * dict) :=
  match llm_config with
  | Some c =>
      match setattr_guard "config" with
      | Ok _ => Ok (c, kwargs)
      | Raise e => Raise e
      end
  | None =>
      match config_class cls kwargs with
      | Ok c =>
          match setattr_guard "config" with
          | Ok _ =>
              match __pydantic_extra__ c with
              | Some extra => Ok (c, extra)
              | None => Raise (AssertionError "")
              end
          | Raise e => Raise e
          end
      | Raise e => Raise e
      end
  end.

(** Lines 325-327: the class's static default. *)
Definition static_default (cls : LLMClass World) : result string :=
  match default_model cls with
  | None => Raise (AttributeError "default_model")
  | Some d =>
      if str_truthy d then Ok (default "" d)
      else Raise (AssertionError "A default model is required for any LLM.")
  end.

(** [LLM.__init__] with its parameters [pretrained], [llm_config], the
    positional [args] and the keyword [kwargs], on a new instance of
    [cls]; the result is the initialised instance. *)
Definition __init__ (cls : LLMClass World) (pretrained : option string)
    (llm_config : option LLMConfig) (args : list value) (kwargs : dict)
  : B World (LLM World) :=
  '(cfg, kwargs) ← liftR (init_config cls llm_config kwargs);
  pretrained ←
    match pretrained with
    | Some p => mret p
    | None =>
        env ← observe (fun w => environ w !! pretrained_envvar cfg);
        if str_truthy env then mret (default "" env)
        else liftR (static_default cls)
    end;
  liftR (setattr_guard "_pretrained");;
  liftR (setattr_guard "_args");;
  liftR (setattr_guard "_kwargs");;
  mret (mkLLM cls cfg pretrained args kwargs None VNone VNone ∅).

(** ** The default import routine (lines 73-146) *)

Definition hub_kwds_names : list string :=
  ["cache_dir"; "force_download"; "local_files_only"; "proxies";
   "resume_download"; "revision"; "subfolder"; "use_auth_token"].

Definition is_PretrainedConfig (v : value) : bool :=
  match v with VPretrainedConfig _ => true | _ => false end.

(** The body of [import_model], its parameters bound. *)
Definition import_model (model_name tag __openllm_framework__ : string)
    (model_args : list value) (tokenizer_kwds kwds : dict)
  : B World bentoml.Model :=
  let config := default VNone (kwds !! "config") in
  let kwds := delete "config" kwds in
  let trust_remote_code := default (VBool false) (kwds !! "trust_remote_code") in
  let kwds := delete "trust_remote_code" kwds in
  let hub_kwds := filter (fun kv => kv.1 ∈ hub_kwds_names) kwds in
  let kwds := filter (fun kv => kv.1 ∉ hub_kwds_names) kwds in
  '(config, kwds) ←
    (if is_PretrainedConfig config then mret (config, kwds)
     else
       let copied_kwds :=
         if bool_decide (kwds !! "torch_dtype" = Some (VStr "auto"))
         then delete "torch_dtype" kwds else kwds in
       kw ← liftR (keywords [ {[ "return_unused_kwargs" := VBool true ]};
                              {[ "trust_remote_code" := trust_remote_code ]};
                              hub_kwds; copied_kwds ]);
       call (C_AutoConfig model_name kw) (AutoConfig_from_pretrained model_name kw));
  task_type ←
    (if MODEL_FOR_CAUSAL_LM_MAPPING config then mret "text-generation"
     else if MODEL_FOR_SEQ_TO_SEQ_CAUSAL_LM_MAPPING config then mret "text2text-generation"
     else raiseB (OpenLLMException "Model type is not supported yet."));
  classes ← liftR (match _return_tensors_to_framework_map !! __openllm_framework__ with
                   | Some l => Ok l
                   | None => Raise (KeyError __openllm_framework__)
                   end);
  task ← liftR (TaskType_getitem task_type);
  auto_class ← liftR (match classes !! (TaskType_value task - 1)%nat with
                      | Some c => Ok c
                      | None => Raise (OtherError "IndexError")
                      end);
  kw ← liftR (keywords [ {[ "config" := config ]};
                         {[ "trust_remote_code" := trust_remote_code ]};
                         hub_kwds; kwds ]);
  model ← call (C_from_pretrained auto_class model_name model_args kw)
               (from_pretrained auto_class model_name model_args kw);
  kw ← liftR (keywords [ {[ "config" := config ]};
                         {[ "trust_remote_code" := trust_remote_code ]};
                         hub_kwds; tokenizer_kwds ]);
  tokenizer ← call (C_AutoTokenizer model_name kw)
                   (AutoTokenizer_from_pretrained model_name kw);
  call (C_save_model tag model {[ "tokenizer" := tokenizer ]})
       (save_model tag model {[ "tokenizer" := tokenizer ]}).

(** A keyword written out at a call site next to an unpacked dictionary
    that has the same key is a [TypeError]. *)
Definition explicit_keywords (names : list string) (d : dict) : result unit :=
  if bool_decide (Forall (fun n => d !! n = None) names) then Ok tt
  else Raise (TypeError "got multiple values for keyword argument").

(** The call of lines 376-384.  Positional arguments after [tag] bind to
    [__openllm_framework__] first, which the call also gives by keyword. *)
Definition call_import_model (pretrained tag : string) (args : list value)
    (tokenizer_kwds : dict) (trust_remote_code : value) (framework : string)
    (kwds : dict) : B World bentoml.Model :=
  liftR (explicit_keywords ["tokenizer_kwds"; "trust_remote_code"; "__openllm_framework__"] kwds);;
  liftR (explicit_keywords ["model_name"; "tag"] kwds);;
  match args with
  | [] =>
      let kwds := <["trust_remote_code" := trust_remote_code]> kwds in
      invoke (C_import_model false pretrained tag [] tokenizer_kwds kwds)
             (import_model pretrained tag framework [] tokenizer_kwds kwds)
  | _ :: _ => raiseB (TypeError "got multiple values for argument '__openllm_framework__'")
  end.

(** The call of lines 366-373 to a subclass override. *)
Definition call_override
    (f : string -> string -> list value -> dict -> dict -> B World bentoml.Model)
    (pretrained tag : string) (args : list value) (tokenizer_kwds : dict)
    (trust_remote_code : value) (kwds : dict) : B World bentoml.Model :=
  liftR (explicit_keywords ["tokenizer_kwds"; "trust_remote_code"] kwds);;
  let kwds := <["trust_remote_code" := trust_remote_code]> kwds in
  invoke (C_import_model true pretrained tag args tokenizer_kwds kwds)
         (f pretrained tag args tokenizer_kwds kwds).

(** ** The lazily resolved accessors (lines 335-412) *)

(** The [except] branch of [_bentomodel] (lines 361-384).
    [hasattr(self, "import_model")] holds when the instance has an attribute
    of that name (the values kept in [__dict__] are data, and calling one
    is a [TypeError]) or when the class defines the method; [LLM] itself
    declares it only under [TYPE_CHECKING]. *)
Definition import_on_miss (self : LLM World) (tag : string)
    (tokenizer_kwds : dict) (trust_remote_code : value) (kwds : dict)
  : B World bentoml.Model :=
  match __dict__ self !! "import_model", import_model_method (class_of self) with
  | Some _, _ => raiseB (TypeError "object is not callable")
  | None, Some f =>
      call_override f (_pretrained self) tag (_args self) tokenizer_kwds
                    trust_remote_code kwds
  | None, None =>
      call_import_model (_pretrained self) tag (_args self) tokenizer_kwds
                        trust_remote_code (_implementation (class_of self)) kwds
  end.

(** [LLM._bentomodel] *)
Definition _bentomodel : M World bentoml.Model :=
  self ← get_self;
  match __bentomodel__ self with
  | Some bm => mret bm
  | None =>
      let trust_remote_code :=
        default (__openllm_trust_remote_code__ (config self))
                (_kwargs self !! "trust_remote_code") in
      modify (set__kwargs (delete "trust_remote_code" (_kwargs self)));;
      self ← get_self;
      kw ← liftB (liftR (keywords [ {[ "prefix" := VStr (_implementation (class_of self)) ]};
                                    {[ "trust_remote_code" := trust_remote_code ]};
                                    _kwargs self ]));
      '(tag, kwds) ← liftB (call (C_generate_tags (_pretrained self) kw)
                                 (generate_tags (_pretrained self) kw));
      let '(tokenizer_kwds, kwds) :=
        partition_kwds (import_kwargs (class_of self)) kwds in
      try_except
        (bm ← liftB (call (C_get tag) (transformers_get tag));
         __setattr__ "__bentomodel__" (set___bentomodel__ bm);;
         mret bm)
        is_BentoMLException
        (bm ← liftB (import_on_miss self tag tokenizer_kwds trust_remote_code kwds);
         __setattr__ "__bentomodel__" (set___bentomodel__ bm);;
         mret bm)
  end.

(** [LLM.tag] *)
Definition tag : M World string :=
  bm ← _bentomodel;
  mret (bentoml.tag bm).

(** [LLM.model] *)
Definition model : M World value :=
  self ← get_self;
  match __llm_model__ self with
  | VNone =>
      bm ← _bentomodel;
      self ← get_self;
      m ← liftB (call (C_load_model bm (_args self) (_kwargs self))
                      (load_model bm (_args self) (_kwargs self)));
      __setattr__ "__llm_model__" (set___llm_model__ m);;
      mret m
  | m => mret m
  end.

(** [LLM.tokenizer]; the [try] spans the evaluation of [self._bentomodel]. *)
Definition tokenizer : M World value :=
  self ← get_self;
  match __llm_tokenizer__ self with
  | VNone =>
      try_except
        (bm ← _bentomodel;
         t ← liftB (liftR (match bentoml.custom_objects bm !! "tokenizer" with
                           | Some t => Ok t
                           | None => Raise (KeyError "tokenizer")
                           end));
         __setattr__ "__llm_tokenizer__" (set___llm_tokenizer__ t);;
         mret t)
        is_KeyError
        (raise (OpenLLMException "Model does not have tokenizer."))
  | t => mret t
  end.

(** ** Runners (lines 414-492) *)

(** Modelled from the spec: [ModelSignature.from_dict] and
    [ModelSignature.convert_signatures_dict] of [openllm._configuration]
    are not among the sources.  [from_dict] keeps the attributes the dict
    gives and takes the class defaults for the others;
    [convert_signatures_dict] converts every dict-form entry and keeps the
    entries that are signatures already. *)
Definition from_dict (d : ModelSignatureDict) : ModelSignature :=
  mkSignature
    (default (batchable signature_defaults) (dict_batchable d))
    (default (batch_dim signature_defaults) (dict_batch_dim d))
    (default (input_spec signature_defaults) (dict_input_spec d))
    (default (output_spec signature_defaults) (dict_output_spec d)).

Definition convert_signatures_dict
    (data : gmap string (ModelSignatureDict + ModelSignature))
  : gmap string ModelSignature :=
  (fun v => match v with inl d => from_dict d | inr s => s end) <$> data.

(** What [to_runner] hands to [bentoml.Runner]: the runnable class with the
    two method signatures, and the keyword arguments of the call. *)
Record Runner : Type := mkRunner {
  runnable_name : string;
  runnable_generate : ModelSignature;
  runnable_generate_iterator : ModelSignature;
  runnable_init_params : dict;
  name : string;
  models : list bentoml.Model;
  max_batch_size : option Z;
  max_latency_ms : option Z;
  method_configs : gmap string (ModelSignatureDict + ModelSignature);
  embedded : bool;
  scheduling_strategy : string
}.

(** The signatures of the two runnable methods (lines 450-458). *)
Definition method_signatures
    (method_configs : option (gmap string (ModelSignatureDict + ModelSignature)))
  : gmap string (ModelSignatureDict + ModelSignature) * ModelSignature * ModelSignature :=
  let generate_sig := from_dict (ModelSignatureDict_batchable false) in
  let generate_iterator_sig := from_dict (ModelSignatureDict_batchable true) in
  match method_configs with
  | None =>
      ({[ "generate" := inr generate_sig;
          "generate_iterator" := inr generate_iterator_sig ]},
       generate_sig, generate_iterator_sig)
  | Some mc =>
      (mc,
       default generate_sig (convert_signatures_dict mc !! "generate"),
       default generate_iterator_sig (convert_signatures_dict mc !! "generate_iterator"))
  end.

(** [LLM.to_runner] *)
Definition to_runner (name : option string) (models : option (list bentoml.Model))
    (max_batch_size max_latency_ms : option Z)
    (method_configs : option (gmap string (ModelSignatureDict + ModelSignature)))
    (embedded : bool) (scheduling_strategy : option string) (kwargs : dict)
  : M World Runner :=
  self ← get_self;
  let name :=
    default ("llm-" +:+ __openllm_start_name__ (config self) +:+ "-runner") name in
  let models := default [] models in
  bm ← _bentomodel;
  let models := models ++ [bm] in
  let scheduling_strategy := default "DefaultStrategy" scheduling_strategy in
  let '(method_configs, generate_sig, generate_iterator_sig) :=
    method_signatures method_configs in
  mret (mkRunner
          (camelize (__openllm_model_name__ (config self)) +:+ "Runnable")
          generate_sig generate_iterator_sig kwargs
          name models max_batch_size max_latency_ms method_configs embedded
          scheduling_strategy).

(** ** ChatGLM ([modeling_chatglm.py]) *)

(** [ChatGLM.import_model] (lines 52-63) *)
Definition ChatGLM_import_model (pretrained tag : string) (model_args : list value)
    (tokenizer_kwds kwds : dict) : B World bentoml.Model :=
  kw ← liftR (keywords [ {[ "trust_remote_code" := VBool true ]}; kwds ]);
  model ← call (C_from_pretrained "AutoModel" pretrained [] kw)
               (from_pretrained "AutoModel" pretrained [] kw);
  kw ← liftR (keywords [ {[ "trust_remote_code" := VBool true ]}; tokenizer_kwds ]);
  tokenizer ← call (C_AutoTokenizer pretrained kw)
                   (AutoTokenizer_from_pretrained pretrained kw);
  call (C_save_model tag model {[ "tokenizer" := tokenizer ]})
       (save_model tag model {[ "tokenizer" := tokenizer ]}).

(** The class [ChatGLM]; [ChatGLMConfig] is what [__init_subclass__] finds
    under [openllm] for an internal class without [config_class]. *)
Definition ChatGLM (ChatGLMConfig : dict -> result LLMConfig) : LLMClass World :=
  mkClass "ChatGLM" "pt" (Some (Some "THUDM/chatglm-6b-int4"))
          ["THUDM/chatglm-6b"; "THUDM/chatglm-6b-int8"; "THUDM/chatglm-6b-int4"]
          ChatGLMConfig None (Some ChatGLM_import_model).

(** [self.model = self.model.<method>(args)] *)
Definition convert_model (method : string) (args : list value) : M World unit :=
  m ← model;
  m' ← liftB (call (C_method method m args) (call_method method m args));
  assign "model" m'.

(** [ChatGLM.generate] (lines 65-116).  [respond] stands for lines 87-116:
    prompt assembly, tokenization, sampling and the update of the
    history. *)
Definition ChatGLM_generate (respond : string -> dict -> M World value)
    (prompt : string) (kwargs : dict) : M World value :=
  self ← get_self;
  cuda ← liftB (observe cuda_is_available);
  (if cuda : bool then
     (if use_half_precision (config self) then convert_model "half" [] else mret tt);;
     convert_model "cuda" []
   else convert_model "float" []);;
  system ← liftB (observe platform_system);
  (if String.eqb system "Darwin" then convert_model "to" [VStr "mps"] else mret tt);;
  m ← model;
  liftB (call (C_method "eval" m []) (call_method "eval" m []));;
  respond prompt kwargs.

End Wrapper.

(** ** Class creation (lines 213-228 of [_llm.py]) *)

(** A configuration class as [__init_subclass__] sees it: its class
    attribute [__openllm_start_name__] and its constructor. *)
Record ConfigClass : Type := mkConfigClass {
  class_start_name : string;
  construct : dict -> result LLMConfig
}.

(** The name under which [__init_subclass__] looks the configuration class
    up in the [openllm] package. *)
Definition config_class_name (implementation __name__ : string) : string :=
  if String.eqb implementation "tf" then str_drop 2 __name__ +:+ "Config"
  else if String.eqb implementation "flax" then str_drop 4 __name__ +:+ "Config"
  else __name__ +:+ "Config".

(** [LLM.__init_subclass__(cls, implementation=..., _internal=...)] for a
    class named [__name__]; [config_class] is what
    [getattr(cls, "config_class", None)] gives, and [openllm] is the
    namespace of the package.  The result is what the
    method leaves on the class: [_implementation], [config_class] and
    [__openllm_start_name__]. *)
Definition __init_subclass__ (openllm : gmap string ConfigClass)
    (__name__ : string) (config_class : option ConfigClass)
    (implementation : string) (_internal : bool)
  : result (string * ConfigClass * string) :=
  if negb _internal && bool_decide (config_class = None :> option ConfigClass) then
    Raise (OtherError "RuntimeError: 'config_class' must be defined for LLM subclasses.")
  else
    match
      match config_class with
      | None =>
          match openllm !! config_class_name implementation __name__ with
          | Some c => Ok c
          | None => Raise (AttributeError (config_class_name implementation __name__))
          end
      | Some c => Ok c
      end
    with
    | Ok c => Ok (implementation, c, class_start_name c)
    | Raise e => Raise e
    end.

(** ** The logits processor of ChatGLM (lines 32-39 of [modeling_chatglm.py]) *)

(** An entry of a score tensor: the processor only asks whether it is a
    NaN or an infinity, and writes the constants [0] and [5e4]. *)
Inductive score : Type :=
| Finite (x : QArith_base.Q)
| PosInf
| NegInf
| NaN.

Definition isnan (x : score) : bool :=
  match x with NaN => true | _ => false end.

Definition isinf (x : score) : bool :=
  match x with PosInf | NegInf => true | _ => false end.

Definition zero : score := Finite (QArith_base.Qmake 0 1).
Definition fifty_thousand : score := Finite (QArith_base.Qmake 50000 1).

(** [torch.isnan(scores).any() or torch.isinf(scores).any()] on a tensor of
    shape (batch, vocabulary), given as the list of its rows. *)
Definition any_invalid (scores : list (list score)) : bool :=
  existsb (existsb isnan) scores || existsb (existsb isinf) scores.

(** [InvalidScoreLogitsProcessor.__call__(input_ids, scores)]: the value
    returned or the exception raised, and the content of [scores]
    afterwards ([zero_] and the indexed assignment work in place).  Index 5
    of the last dimension exists when the rows are longer than 5; otherwise
    the assignment is an [IndexError]. *)
Definition InvalidScoreLogitsProcessor_call (scores : list (list score))
  : result (list (list score)) * list (list score) :=
  if any_invalid scores then
    let zeroed := map (map (fun _ => zero)) scores in
    if forallb (fun row => 5 <? length row)%nat zeroed then
      let marked := map (fun row => <[5%nat := fifty_thousand]> row) zeroed in
      (Ok marked, marked)
    else (Raise (OtherError "IndexError"), zeroed)
  else (Ok scores, scores).

(** ** Properties of the calls of a computation *)

(** The keyword arguments of a call to one of the loaders of transformers
    ([AutoConfig], the auto class of the model, [AutoTokenizer]). *)
Definition loader_keywords (c : Call) : option dict :=
  match c with
  | C_AutoConfig _ kw | C_from_pretrained _ _ _ kw | C_AutoTokenizer _ kw => Some kw
  | _ => None
  end.

(** Every call a backend computation makes satisfies [P]. *)
Definition every_call {World A} (P : Call -> Prop) (m : B World A) : Prop :=
  forall w r w' ev e, runB m w = (r, w', ev) -> e ∈ ev -> P (call_of e).

(** A backend computation that raises whatever the world answers. *)
Definition fails {World A} (m : B World A) : Prop :=
  forall w r w' ev, runB m w = (r, w', ev) -> is_Ok r = false.

(** A backend computation that saves at most once, as its last call: a save
    under [tag] with a tokenizer as the only custom object, whose outcome is
    the outcome of the computation. *)
Definition saves_last {World} (tag : string) (m : B World bentoml.Model) : Prop :=
  forall w r w' ev, runB m w = (r, w', ev) ->
    (is_Ok r = false /\ count is_save ev = 0)
    \/ exists ev0 model tokenizer,
         ev = ev0 ++ [Ev (C_save_model tag model {[ "tokenizer" := tokenizer ]})
                         (is_Ok r) false]
         /\ count is_save ev0 = 0.

(** Loads made by the model accessor itself. *)
Definition is_load (e : Event) : bool :=
  match call_of e with C_load_model _ _ _ => negb (in_import e) | _ => false end.

(** ** Properties of traces *)

(** A backend computation that never saves, and one that saves exactly once
    whenever it returns. *)
Definition quiet {World A} (m : B World A) : Prop :=
  forall w r w' ev, runB m w = (r, w', ev) -> count is_save ev = 0.

Definition saves_once {World A} (m : B World A) : Prop :=
  forall w a w' ev, runB m w = (Ok a, w', ev) -> count is_save ev = 1.

(** ** A small concrete world

    The store is a finite map from tags to handles; the hub serves every
    model except ["offline/model"]; tags are the pretrained names. *)

Record TestWorld : Type := mkTestWorld {
  store : gmap string bentoml.Model;
  process_env : gmap string string;
  cuda : bool
}.

#[global] Instance test_backend : Backend TestWorld := {|
  generate_tags := fun pretrained kw w =>
    (Ok (pretrained, delete "prefix" (delete "trust_remote_code" kw)), w);
  transformers_get := fun tag w =>
    (match store w !! tag with
     | Some m => Ok m
     | None => Raise (BentoMLException "not found")
     end, w);
  save_model := fun tag model objects w =>
    (Ok (bentoml.mkModel tag objects),
     mkTestWorld (<[tag := bentoml.mkModel tag objects]> (store w)) (process_env w) (cuda w));
  load_model := fun m args kw w => (Ok (VObj 1), w);
  AutoConfig_from_pretrained := fun model_name kw w =>
    (Ok (VPretrainedConfig 0, delete "return_unused_kwargs" (delete "trust_remote_code" kw)), w);
  MODEL_FOR_CAUSAL_LM_MAPPING := fun _ => true;
  MODEL_FOR_SEQ_TO_SEQ_CAUSAL_LM_MAPPING := fun _ => false;
  from_pretrained := fun auto_class model_name args kw w =>
    (if String.eqb model_name "offline/model" then Raise (OtherError "OSError")
     else Ok (VObj 2), w);
  AutoTokenizer_from_pretrained := fun model_name kw w => (Ok (VObj 3), w);
  environ := process_env;
  cuda_is_available := cuda;
  platform_system := fun _ => "Linux";
  call_method := fun name receiver args w => (Ok receiver, w);
  camelize := fun s => s;
  signature_defaults := mkSignature false (VInt 0) VNone VNone
|}.

Definition empty_world : TestWorld := mkTestWorld ∅ ∅ false.

(** A configuration class that keeps every keyword as an extra. *)
Definition test_config (model_name start_name : string) (kwargs : dict)
  : result LLMConfig :=
  Ok (mkConfig model_name start_name (VBool false) (Some kwargs) false false).

(** A family with the default import routine, and one without a default
    model. *)
Definition FlanT5 : LLMClass TestWorld :=
  mkClass "FlanT5" "pt" (Some (Some "google/flan-t5-large"))
          ["google/flan-t5-small"; "google/flan-t5-large"]
          (test_config "flan_t5" "flan-t5") None None.

Definition Nameless : LLMClass TestWorld :=
  mkClass "Nameless" "pt" (Some None) [] (test_config "nameless" "nameless") None None.

Definition TestChatGLM : LLMClass TestWorld :=
  ChatGLM (backend := test_backend) (test_config "chatglm" "chatglm").

Definition flan_small : string := "google/flan-t5-small".

Definition flan_config : LLMConfig :=
  mkConfig "flan_t5" "flan-t5" (VBool false) (Some ∅) false false.

Definition chatglm_config : LLMConfig :=
  mkConfig "chatglm" "chatglm" (VBool true) (Some ∅) false false.

(** Instances as [__init__] leaves them. *)
Definition new_instance (cls : LLMClass TestWorld) (pretrained : string) (kwargs : dict)
  : LLM TestWorld :=
  mkLLM cls flan_config pretrained [] kwargs None VNone VNone ∅.

Definition chatglm_instance : LLM TestWorld :=
  mkLLM TestChatGLM chatglm_config "THUDM/chatglm-6b-int4" [] ∅ None VNone VNone ∅.

(** Class-level import defaults in the style of the [DollyV2] family the
    docstring of [__init__] refers to, and the keyword arguments of a caller. *)
Definition dolly_import_kwargs : dict := {[ "device_map" := VStr "auto" ]}.

Definition caller_kwds : dict :=
  {[ "_tokenizer_padding_side" := VStr "left"; "torch_dtype" := VStr "bfloat16" ]}.

(** A stored handle with its tokenizer, and one saved without. *)
Definition stored_handle : bentoml.Model :=
  bentoml.mkModel flan_small {[ "tokenizer" := VObj 3 ]}.


Definition world_with (m : bentoml.Model) : TestWorld :=
  mkTestWorld {[ bentoml.tag m := m ]} ∅ false.

Definition env_world : TestWorld :=
  mkTestWorld ∅ {[ "OPENLLM_FLAN_T5_PRETRAINED" := "google/flan-t5-xl" ]} false.

(** Lines 87-116 of [ChatGLM.generate], reduced to an answer. *)
Definition answer (prompt : string) (kwargs : dict) : M TestWorld value :=
  mret (VStr prompt).

(** Keyword arguments of a default import: for the model, for the
    tokenizer, and a request that brings its own configuration object and
    pins a revision. *)
Definition model_request : dict :=
  {[ "trust_remote_code" := VBool true; "torch_dtype" := VStr "auto";
     "device_map" := VStr "auto" ]}.

Definition tokenizer_request : dict := {[ "padding_side" := VStr "left" ]}.

Definition pinned_request : dict :=
  {[ "config" := VPretrainedConfig 7; "revision" := VStr "main";
     "device_map" := VStr "auto" ]}.

(** What the loaders are given by [import_model] on [model_request] and
    [tokenizer_request] with the framework ["pt"], and what the model
    loader is given on [pinned_request] with the framework ["tf"]. *)
Definition config_keywords : dict :=
  {[ "return_unused_kwargs" := VBool true; "trust_remote_code" := VBool true;
     "device_map" := VStr "auto" ]}.

Definition model_keywords : dict :=
  {[ "config" := VPretrainedConfig 0; "trust_remote_code" := VBool true;
     "device_map" := VStr "auto" ]}.

Definition tokenizer_keywords : dict :=
  {[ "config" := VPretrainedConfig 0; "trust_remote_code" := VBool true;
     "padding_side" := VStr "left" ]}.

Definition pinned_model_keywords : dict :=
  {[ "config" := VPretrainedConfig 7; "revision" := VStr "main";
     "trust_remote_code" := VBool false; "device_map" := VStr "auto" ]}.

Definition config_call : Event := Ev (C_AutoConfig flan_small config_keywords) true false.

Definition model_call : Event :=
  Ev (C_from_pretrained "AutoModelForCausalLM" flan_small [] model_keywords) true false.

Definition tokenizer_call : Event :=
  Ev (C_AutoTokenizer flan_small tokenizer_keywords) true false.

Definition pinned_model_call : Event :=
  Ev (C_from_pretrained "TFAutoModelForCausalLM" flan_small [] pinned_model_keywords)
     true false.

(** A handle with a model keyword, and the tag request its resolution
    makes. *)
Definition mapped_instance : LLM TestWorld :=
  new_instance FlanT5 flan_small {[ "device_map" := VStr "auto" ]}.

Definition tag_keywords : dict :=
  {[ "prefix" := VStr "pt"; "trust_remote_code" := VBool false;
     "device_map" := VStr "auto" ]}.

Definition tag_call : Event := Ev (C_generate_tags flan_small tag_keywords) true false.

(** The import call of that resolution when the store is empty. *)
Definition import_keywords : dict :=
  {[ "trust_remote_code" := VBool false; "device_map" := VStr "auto" ]}.

Definition import_call : Event :=
  Ev (C_import_model false flan_small flan_small [] ∅ import_keywords) true false.

(** A handle with a positional argument, and a class whose import defaults
    name [trust_remote_code]. *)
Definition positional_instance : LLM TestWorld :=
  mkLLM FlanT5 flan_config flan_small [VInt 1] ∅ None VNone VNone ∅.

Definition Trusting : LLMClass TestWorld :=
  mkClass "Trusting" "pt" (Some (Some "trusting/base")) ["trusting/base"]
          (test_config "trusting" "trusting")
          (Some {[ "trust_remote_code" := VBool true ]}) None.

(** A family declared for a framework that the table of [import_model]
    does not know. *)
Definition JaxFlan : LLMClass TestWorld :=
  mkClass "JaxFlan" "jax" (Some (Some "google/flan-t5-large")) ["google/flan-t5-large"]
          (test_config "flan_t5" "flan-t5") None None.

(** The configuration class of the family as the package registers it. *)
Definition FlanT5Config : ConfigClass :=
  mkConfigClass "flan-t5" (test_config "flan_t5" "flan-t5").

Definition package : gmap string ConfigClass := {[ "FlanT5Config" := FlanT5Config ]}.

(** Score tensors with one row: six entries with a NaN among them, and two
    entries with an infinity. *)
Definition one : score := Finite (QArith_base.Qmake 1 1).


Definition short_scores : list (list score) := [[PosInf; one]].

(** The store handle of the default ChatGLM model. *)
Definition chatglm_handle : bentoml.Model :=
  bentoml.mkModel "THUDM/chatglm-6b-int4" {[ "tokenizer" := VObj 3 ]}.

(** ** Proof tools *)

(** Closed decidable goals, by evaluation. *)
Ltac by_evaluation := apply (bool_decide_unpack _); vm_compute; exact I.

(** Unfolding of the monadic plumbing, leaving the program's own
    definitions folded. *)
Ltac run :=
  cbv [mbind mret M_bind M_ret B_bind B_ret];
  cbn [runM runB mbind mret M_bind M_ret B_bind B_ret get_self modify liftB
       liftR call raise raiseB try_except observe invoke __setattr__
       set__kwargs set___bentomodel__ set___llm_model__ set___llm_tokenizer__
       class_of config _pretrained _args _kwargs __bentomodel__ __llm_model__
       __llm_tokenizer__ __dict__ res self_after world_after events].

(** * Properties *)

(** ** Strings *)

Lemma startswith_app (p k : string) : startswith p (p +:+ k) = true.
Proof.
  induction p as [|c p IH]; simpl; [done|].
  by rewrite Ascii.eqb_refl.
Qed.

Lemma str_drop_app (p k : string) : str_drop (String.length p) (p +:+ k) = k.
Proof. induction p as [|c p IH]; simpl; [done | exact IH]. Qed.

Lemma startswith_drop (p s : string) :
  startswith p s = true -> s = p +:+ str_drop (String.length p) s.
Proof.
  revert s. induction p as [|c p IH]; intros s Hs; simpl in *; [done|].
  destruct s as [|c' s]; [discriminate|].
  apply andb_prop in Hs as [Hc Hs]. apply Ascii.eqb_eq in Hc as ->.
  change (String c' s = String c' (p +:+ str_drop (String.length p) s)).
  f_equal. by apply IH.
Qed.

Example upper_model_name : upper "flan_t5" = "FLAN_T5".
Proof. reflexivity. Qed.

Example TaskType_text_generation :
  TaskType_getitem "text-generation" = Ok TEXT_GENERATION
  /\ TaskType_getitem "text2text-generation" = Ok TEXT2TEXT_GENERATION
  /\ TaskType_getitem "fill-mask" = Raise (OpenLLMException "TaskType is not yet supported.").
Proof. repeat split; reflexivity. Qed.

(** ** Keyword arguments *)

Example keywords_merge :
  keywords [ {[ "config" := VNone ]}; {[ "revision" := VStr "main" ]} ]
  = Ok {[ "config" := VNone; "revision" := VStr "main" ]}.
Proof. vm_compute. reflexivity. Qed.

Example keywords_twice :
  keywords [ {[ "trust_remote_code" := VBool true ]};
             {[ "trust_remote_code" := VBool false; "revision" := VStr "main" ]} ]
  = Raise (TypeError "got multiple values for keyword argument").
Proof. vm_compute. reflexivity. Qed.

(** ** The partition of the keyword arguments *)

Lemma tokenizer_scoped_lookup (d : dict) (k : string) :
  tokenizer_scoped d !! k = d !! (_tokenizer_ +:+ k).
Proof.
  unfold tokenizer_scoped.
  apply (map_fold_weak_ind
           (fun (acc d : dict) => acc !! k = d !! (_tokenizer_ +:+ k))).
  - by rewrite !lookup_empty.
  - intros i x m r Hi IH.
    destruct (startswith _tokenizer_ i) eqn:Hp.
    + apply startswith_drop in Hp.
      destruct (decide (str_drop (String.length _tokenizer_) i = k)) as [Hk|Hk].
      * rewrite Hk, lookup_insert_eq. rewrite <- Hk, <- Hp.
        by rewrite lookup_insert_eq.
      * rewrite lookup_insert_ne by done.
        rewrite lookup_insert_ne; [done|].
        intros E. apply Hk. rewrite E. apply str_drop_app.
    + rewrite lookup_insert_ne; [done|].
      intros E. rewrite E, startswith_app in Hp. discriminate.
Qed.

Lemma model_scoped_lookup (d : dict) (k : string) :
  model_scoped d !! k = if startswith _tokenizer_ k then None else d !! k.
Proof.
  unfold model_scoped.
  destruct (startswith _tokenizer_ k) eqn:Hp.
  - apply map_lookup_filter_None. right. intros x _ HP.
    cbn [fst] in HP. congruence.
  - destruct (d !! k) as [v|] eqn:E.
    + by apply map_lookup_filter_Some.
    + apply map_lookup_filter_None. by left.
Qed.

(** The example of the specification: one tokenizer-scoped and one
    model-scoped parameter, no class-level defaults. *)
Example partition_padding_side :
  partition_kwds None {[ "_tokenizer_padding_side" := VStr "left";
                         "device_map" := VStr "auto" ]}
  = ({[ "padding_side" := VStr "left" ]}, {[ "device_map" := VStr "auto" ]}).
Proof. vm_compute. reflexivity. Qed.

(** A stripped key that collides with a model-scoped key: each dictionary
    keeps its own value. *)
Example partition_collision :
  partition_kwds None {[ "_tokenizer_revision" := VStr "tok";
                         "revision" := VStr "main" ]}
  = ({[ "revision" := VStr "tok" ]}, {[ "revision" := VStr "main" ]}).
Proof. vm_compute. reflexivity. Qed.

(** C4, as amended.  After the partition step, tokenizer params hold, under
    the stripped key, the caller's value of each prefixed key and otherwise
    the class-level [import_kwargs] value of that prefixed key; model params
    hold no prefixed key and, under each unprefixed key, the caller's value and
    otherwise the class-level value.  A model-scoped entry never reaches
    tokenizer params.  With [import_kwargs] absent or empty the two are exactly
    the stripped prefixed and the unprefixed entries of the caller. *)
Theorem partition_kwds_lookup (import_kwargs : option dict) (kwds : dict) (k : string) :
  let defaults := default ∅ import_kwargs in
  let '(tokenizer_kwds, model_kwds) := partition_kwds import_kwargs kwds in
  tokenizer_kwds !! k =
    match kwds !! (_tokenizer_ +:+ k) with
    | Some v => Some v
    | None => defaults !! (_tokenizer_ +:+ k)
    end
  /\ model_kwds !! k =
    if startswith _tokenizer_ k then None
    else match kwds !! k with
         | Some v => Some v
         | None => defaults !! k
         end.
Proof.
  unfold partition_kwds. destruct (dict_truthy import_kwargs) eqn:Ht.
  - rewrite !lookup_union, !tokenizer_scoped_lookup, !model_scoped_lookup.
    split.
    + by destruct (kwds !! (_tokenizer_ +:+ k)), (default ∅ import_kwargs !! (_tokenizer_ +:+ k)).
    + destruct (startswith _tokenizer_ k); [done|].
      by destruct (kwds !! k), (default ∅ import_kwargs !! k).
  - assert (default ∅ import_kwargs = (∅ : dict)) as ->.
    { destruct import_kwargs as [d|]; [|done]. simpl in Ht.
      apply negb_false_iff, bool_decide_eq_true in Ht. by subst. }
    rewrite tokenizer_scoped_lookup, model_scoped_lookup, !lookup_empty.
    split.
    + by destruct (kwds !! (_tokenizer_ +:+ k)).
    + destruct (startswith _tokenizer_ k); [done|]. by destruct (kwds !! k).
Qed.

(** C4 as stated fails: with class-level import defaults, model params hold
    a key the caller never gave. *)
Lemma partition_kwds_not_exact :
  ~ (forall k : string,
       is_Some ((partition_kwds (Some dolly_import_kwargs) caller_kwds).2 !! k)
       <-> is_Some (caller_kwds !! k) /\ startswith _tokenizer_ k = false).
Proof.
  intros H. destruct (H "device_map") as [H1 _].
  destruct H1 as [[v Hv] _].
  - exists (VStr "auto"). vm_compute. reflexivity.
  - vm_compute in Hv. discriminate.
Qed.

(** ** Attribute writes *)

Section Setattr.
Context {World : Type}.




End Setattr.



(** ** Artifact resolution *)

Lemma guard_bentomodel : setattr_guard "__bentomodel__" = Ok tt.
Proof. reflexivity. Qed.

Lemma guard_llm_model : setattr_guard "__llm_model__" = Ok tt.
Proof. reflexivity. Qed.

Lemma guard_llm_tokenizer : setattr_guard "__llm_tokenizer__" = Ok tt.
Proof. reflexivity. Qed.

Lemma guard_model : setattr_guard "model" = Raise (ForbiddenAttributeError "model").
Proof. reflexivity. Qed.

Lemma count_app (p : Event -> bool) (a b : list Event) :
  count p (a ++ b) = count p a + count p b.
Proof. induction a as [|e a IH]; simpl; [done|]. rewrite IH. lia. Qed.

Lemma count_within_import_get (ev : list Event) :
  count is_get (map within_import ev) = 0.
Proof. induction ev as [|[c r i] ev IH]; simpl; [done|]. rewrite IH. by destruct c. Qed.

Lemma count_within_import_import (ev : list Event) :
  count is_import (map within_import ev) = 0.
Proof. induction ev as [|[c r i] ev IH]; simpl; [done|]. rewrite IH. by destruct c. Qed.

Lemma count_within_import_save (ev : list Event) :
  count is_save (map within_import ev) = count is_save ev.
Proof. induction ev as [|[c r i] ev IH]; simpl; [done|]. by rewrite IH. Qed.

Lemma within_import_marked (e : Event) (ev : list Event) :
  e ∈ map within_import ev -> in_import e = true.
Proof.
  intros H. apply list_elem_of_In, in_map_iff in H as (e' & <- & _). reflexivity.
Qed.

Section Resolution.
Context {World : Type} {backend : Backend World}.
Implicit Types (s : LLM World) (w : World).

Lemma quiet_ret {A} (a : A) : quiet (mret a : B World A).
Proof. intros w r w' ev [= <- <- <-]. reflexivity. Qed.

Lemma quiet_liftR {A} (r : result A) : quiet (liftR r : B World A).
Proof. intros w r' w' ev [= <- <- <-]. reflexivity. Qed.

Lemma quiet_raise {A} (e : exn) : quiet (raiseB e : B World A).
Proof. intros w r' w' ev [= <- <- <-]. reflexivity. Qed.

Lemma quiet_call {A} (c : Call) (f : World -> result A * World) :
  is_save (Ev c true false) = false -> quiet (call c f).
Proof.
  intros Hc w r w' ev. run. destruct (f w) as [r0 w0]. intros [= <- <- <-].
  simpl. unfold is_save in *. simpl in *. by rewrite Hc.
Qed.

Lemma quiet_bind {A C} (m : B World A) (k : A -> B World C) :
  quiet m -> (forall a, quiet (k a)) -> quiet (m ≫= k).
Proof.
  intros Hm Hk w r w' ev. unfold mbind, B_bind. run.
  destruct (runB m w) as [[[a|e] w1] ev1] eqn:E1.
  - destruct (runB (k a) w1) as [[r2 w2] ev2] eqn:E2. intros H; injection H as <- <- <-.
    rewrite count_app, (Hm _ _ _ _ E1), (Hk _ _ _ _ _ E2). done.
  - intros H; injection H as <- <- <-. by apply (Hm _ _ _ _ E1).
Qed.

Lemma saves_once_bind {A C} (m : B World A) (k : A -> B World C) :
  quiet m -> (forall a, saves_once (k a)) -> saves_once (m ≫= k).
Proof.
  intros Hm Hk w c w' ev. unfold mbind, B_bind. run.
  destruct (runB m w) as [[[a|e] w1] ev1] eqn:E1; [|discriminate].
  destruct (runB (k a) w1) as [[r2 w2] ev2] eqn:E2.
  intros H; injection H as -> <- <-.
  rewrite count_app, (Hm _ _ _ _ E1), (Hk _ _ _ _ _ E2). done.
Qed.

Lemma saves_once_save tag model objects :
  saves_once (call (C_save_model tag model objects) (save_model tag model objects)).
Proof.
  intros w a w' ev. run. destruct (save_model _ _ _ w) as [r0 w0].
  intros [= -> <- <-]. reflexivity.
Qed.

Ltac quiet :=
  repeat first
    [ apply quiet_ret | apply quiet_liftR | apply quiet_raise
    | apply quiet_call; reflexivity
    | apply quiet_bind; [|intros ?]
    | match goal with
      | |- quiet (if ?b then _ else _) => destruct b
      | |- quiet (match ?x with _ => _ end) => destruct x
      end ].

(** The default import routine saves exactly once when it returns. *)
Lemma import_model_saves_once model_name tag framework model_args
    tokenizer_kwds kwds :
  saves_once (import_model model_name tag framework model_args tokenizer_kwds kwds).
Proof.
  unfold import_model.
  apply saves_once_bind; [quiet|]. intros [config kwds'].
  repeat (apply saves_once_bind; [solve [quiet]|intros ?]).
  apply saves_once_save.
Qed.

Lemma bentomodel_cached s w bm :
  __bentomodel__ s = Some bm ->
  runM _bentomodel s w = Outcome (Ok bm) s w [].
Proof. intros H. unfold _bentomodel. run. rewrite H. reflexivity. Qed.

(** The shapes a first resolution can take. *)
Lemma bentomodel_resolve s w :
  __bentomodel__ s = None ->
  let s1 := set__kwargs (delete "trust_remote_code" (_kwargs s)) s in
  let o := runM _bentomodel s w in
  (exists e, res o = Raise e /\ self_after o = s1 /\
             forall e', e' ∈ events o -> exists p kw r, e' = Ev (C_generate_tags p kw) r false)
  \/ (exists bm tag kw,
        res o = Ok bm /\ self_after o = set___bentomodel__ bm s1 /\
        events o = [Ev (C_generate_tags (_pretrained s) kw) true false;
                    Ev (C_get tag) true false])
  \/ (exists e tag kw,
        res o = Raise e /\ self_after o = s1 /\
        events o = [Ev (C_generate_tags (_pretrained s) kw) true false;
                    Ev (C_get tag) false false])
  \/ (exists tag kw tokenizer_kwds trust kwds w2 r w3 ev,
        runB (import_on_miss s1 tag tokenizer_kwds trust kwds) w2 = (r, w3, ev) /\
        res o = r /\ world_after o = w3 /\
        self_after o = match r with Ok bm => set___bentomodel__ bm s1 | Raise _ => s1 end /\
        events o = [Ev (C_generate_tags (_pretrained s) kw) true false;
                    Ev (C_get tag) false false] ++ ev).
Proof.
  intros Hnone s1 o. subst o. unfold _bentomodel. run. rewrite Hnone. run.
  fold s1.
  destruct (keywords _) as [kw|e] eqn:Hkw.
  2:{ left. exists e. repeat split; try done. intros e' H. by apply elem_of_nil in H. }
  destruct (generate_tags (_pretrained s) kw w) as [[[tag kwds]|e] w1] eqn:Hgt; run.
  2:{ left. exists e. repeat split; try done. intros e' H.
      apply list_elem_of_singleton in H as ->. eauto. }
  destruct (partition_kwds _ kwds) as [tokenizer_kwds kwds'] eqn:Hp. run.
  destruct (transformers_get tag w1) as [[bm|e] w2] eqn:Hget; run.
  - rewrite guard_bentomodel. run. right. left. by exists bm, tag, kw.
  - destruct (is_BentoMLException e) eqn:He.
    + right. right. right.
      destruct (runB (import_on_miss s1 tag tokenizer_kwds _ kwds') w2)
        as [[r w3] ev] eqn:Himp.
      do 9 eexists. split; [exact Himp|].
      destruct r as [bm|e']; run.
      * rewrite guard_bentomodel. run. by rewrite app_nil_r.
      * done.
    + right. right. left. by exists e, tag, kw.
Qed.

(** What the [except] branch leaves in the trace: nothing when the call
    itself is refused, otherwise the invocation followed by the calls made
    inside the routine. *)
Lemma import_on_miss_trace s tag tokenizer_kwds trust kwds w r w' ev :
  runB (import_on_miss s tag tokenizer_kwds trust kwds) w = (r, w', ev) ->
  (ev = [] /\ is_Ok r = false)
  \/ (exists c body,
        ev = Ev c (is_Ok r) false :: map within_import body /\
        is_import (Ev c (is_Ok r) false) = true /\
        (import_model_method (class_of s) = None -> is_Ok r = true ->
         count is_save body = 1)).
Proof.
  unfold import_on_miss.
  destruct (__dict__ s !! "import_model") as [v|].
  { run. intros H; injection H as <- <- <-. by left. }
  destruct (import_model_method (class_of s)) as [f|].
  - unfold call_override. run.
    destruct (explicit_keywords _ kwds) as [[]|e].
    2:{ intros H; injection H as <- <- <-. by left. }
    destruct (runB (f _ _ _ _ _) w) as [[r0 w0] body] eqn:Hf.
    intros H; injection H as <- <- <-. right.
    eexists _, body. by repeat split.
  - unfold call_import_model. run.
    destruct (explicit_keywords _ kwds) as [[]|e].
    2:{ intros H; injection H as <- <- <-. by left. }
    destruct (explicit_keywords _ kwds) as [[]|e].
    2:{ intros H; injection H as <- <- <-. by left. }
    destruct (_args s) as [|a args].
    2:{ run. intros H; injection H as <- <- <-. by left. }
    run.
    destruct (runB (import_model _ _ _ _ _ _) w) as [[r0 w0] body] eqn:Hf.
    intros H; injection H as <- <- <-. right.
    eexists _, body. split; [done|split; [done|]].
    intros _ Hok. destruct r0 as [bm|e]; [|discriminate].
    by eapply import_model_saves_once.
Qed.

Lemma import_on_miss_counts s tag tokenizer_kwds trust kwds w r w' ev :
  runB (import_on_miss s tag tokenizer_kwds trust kwds) w = (r, w', ev) ->
  count is_get ev = 0
  /\ (is_Ok r = true -> count is_import ev = 1)
  /\ (import_model_method (class_of s) = None -> is_Ok r = true ->
      count is_save ev = 1)
  /\ (forall e, e ∈ ev -> is_get e = false).
Proof.
  intros H. apply import_on_miss_trace in H as [[-> Hr]|(c & body & -> & Hc & Hs)].
  - repeat split; try done; try congruence. intros e He. by apply elem_of_nil in He.
  - assert (is_get (Ev c (is_Ok r) false) = false) as Hg.
    { unfold is_import, is_get in *. simpl in *. by destruct c. }
    assert (is_save (Ev c (is_Ok r) false) = false) as Hsv.
    { unfold is_import, is_save in *. simpl in *. by destruct c. }
    repeat split.
    + simpl. by rewrite Hg, count_within_import_get.
    + intros _. simpl. by rewrite Hc, count_within_import_import.
    + intros Hm Hok. simpl. rewrite Hsv, count_within_import_save. by apply Hs.
    + intros e He. apply elem_of_cons in He as [->|He]; [done|].
      apply within_import_marked in He. unfold is_get.
      rewrite He. by destruct (call_of e).
Qed.

(** A resolution that returns a handle has memoized it, and has touched
    nothing but the memo slot and the popped keyword. *)
Lemma bentomodel_ok_state s w bm :
  res (runM _bentomodel s w) = Ok bm ->
  (__bentomodel__ s = Some bm /\ runM _bentomodel s w = Outcome (Ok bm) s w [])
  \/ (__bentomodel__ s = None /\
      self_after (runM _bentomodel s w)
      = set___bentomodel__ bm (set__kwargs (delete "trust_remote_code" (_kwargs s)) s)).
Proof.
  intros Hres. destruct (__bentomodel__ s) as [bm'|] eqn:Hb.
  - left. rewrite (bentomodel_cached s w bm' Hb) in *. simpl in Hres.
    by injection Hres as ->.
  - right. split; [done|].
    destruct (bentomodel_resolve s w Hb)
      as [(e & He & _)|[(bm' & tag & kw & Hr & Hs & _)
         |[(e & tag & kw & He & _)|(tag & kw & tk & tr & kd & w2 & r & w3 & ev & _ & Hr & _ & Hs & _)]]].
    + congruence.
    + congruence.
    + congruence.
    + rewrite Hs. rewrite Hr in Hres. by rewrite Hres.
Qed.

(** C2.  If the store lookup of a resolution succeeds, the accessor calls
    no import routine, neither the default [import_model] nor an override
    of the class, and nothing is saved; the handle found is returned and
    memoized. *)
Theorem cache_hit_no_import s w tag :
  Ev (C_get tag) true false ∈ events (runM _bentomodel s w) ->
  count is_import (events (runM _bentomodel s w)) = 0
  /\ count is_save (events (runM _bentomodel s w)) = 0
  /\ exists bm, res (runM _bentomodel s w) = Ok bm
               /\ __bentomodel__ (self_after (runM _bentomodel s w)) = Some bm.
Proof.
  intros Hin. destruct (__bentomodel__ s) as [bm'|] eqn:Hb.
  { rewrite (bentomodel_cached s w bm' Hb) in Hin. by apply elem_of_nil in Hin. }
  destruct (bentomodel_resolve s w Hb)
    as [(e & _ & _ & Hev)|[(bm & tag' & kw & Hr & Hs & Hev)
       |[(e & tag' & kw & _ & _ & Hev)
        |(tag' & kw & tk & tr & kd & w2 & r & w3 & ev & Himp & _ & _ & _ & Hev)]]].
  - apply Hev in Hin as (p & kw & r & [=]).
  - rewrite Hev, Hr, Hs. repeat split; try done. by exists bm.
  - rewrite Hev in Hin. apply elem_of_cons in Hin as [[=]|Hin].
    apply list_elem_of_singleton in Hin as [=].
  - rewrite Hev in Hin. apply elem_of_app in Hin as [Hin|Hin].
    + apply elem_of_cons in Hin as [[=]|Hin].
      apply list_elem_of_singleton in Hin as [=].
    + apply import_on_miss_counts in Himp as (_ & _ & _ & Hg).
      apply Hg in Hin. discriminate.
Qed.

(** C1, as amended.  On an empty cache, when the first call returns a
    handle, the second call returns the same handle, makes no call and
    changes nothing; together the two calls make exactly one store lookup;
    after a lookup that found the tag there is no import and no save; after
    a lookup that reported not-found there is exactly one import call, and
    the default [import_model] saves exactly once.  When the first call
    raises, the memo slot stays empty, so the next call resolves again. *)
Theorem artifact_memoized s w :
  __bentomodel__ s = None ->
  let o1 := runM _bentomodel s w in
  let o2 := runM _bentomodel (self_after o1) (world_after o1) in
  (forall bm, res o1 = Ok bm ->
     o2 = Outcome (Ok bm) (self_after o1) (world_after o1) []
     /\ count is_get (events o1 ++ events o2) = 1
     /\ (forall tag, Ev (C_get tag) true false ∈ events o1 ->
           count is_import (events o1 ++ events o2) = 0
           /\ count is_save (events o1 ++ events o2) = 0)
     /\ (forall tag, Ev (C_get tag) false false ∈ events o1 ->
           count is_import (events o1 ++ events o2) = 1
           /\ (import_model_method (class_of s) = None ->
               count is_save (events o1 ++ events o2) = 1)))
  /\ (forall e, res o1 = Raise e -> __bentomodel__ (self_after o1) = None).
Proof.
  intros Hb o1 o2. split.
  - intros bm Hres.
    assert (o2 = Outcome (Ok bm) (self_after o1) (world_after o1) []) as Ho2.
    { subst o1 o2. apply bentomodel_cached.
      destruct (bentomodel_ok_state s w bm Hres) as [[Hc _]|[_ ->]]; [congruence|done]. }
    split; [exact Ho2|]. rewrite Ho2. simpl. rewrite app_nil_r. subst o1. clear o2 Ho2.
    destruct (bentomodel_resolve s w Hb)
      as [(e & He & _)|[(bm' & tag' & kw & Hr & Hs & Hev)
         |[(e & tag' & kw & He & _)
          |(tag' & kw & tk & tr & kd & w2 & r & w3 & ev & Himp & Hr & _ & _ & Hev)]]].
    + congruence.
    + rewrite Hev. split; [reflexivity|]. split; [by intros|].
      intros tag Hin. apply elem_of_cons in Hin as [[=]|Hin].
      apply list_elem_of_singleton in Hin as [=].
    + congruence.
    + rewrite Hres in Hr. subst r.
      apply import_on_miss_counts in Himp as (Hg & Hi & Hsv & Hng).
      rewrite Hev, !count_app, Hg. split; [done|]. split.
      * intros tag Hin. exfalso. apply elem_of_app in Hin as [Hin|Hin].
        -- apply elem_of_cons in Hin as [[=]|Hin].
           apply list_elem_of_singleton in Hin as [=].
        -- apply Hng in Hin. discriminate.
      * intros tag _. split; [by rewrite Hi|].
        intros Hm. by rewrite Hsv.
  - intros e Hres. subst o1.
    destruct (bentomodel_resolve s w Hb)
      as [(e' & _ & -> & _)|[(bm' & tag' & kw & Hr & _)
         |[(e' & tag' & kw & _ & -> & _)
          |(tag' & kw & tk & tr & kd & w2 & r & w3 & ev & _ & Hr & _ & -> & _)]]];
      try done.
    + congruence.
    + rewrite Hres in Hr. by subst r.
Qed.

(** ** The model and tokenizer accessors *)

(** A first call of the model accessor: resolve the artifact, then load
    with the arguments the instance holds at that point. *)
Lemma model_run s w :
  __llm_model__ s = VNone ->
  runM model s w =
  match runM _bentomodel s w with
  | Outcome (Ok bm) s1 w1 ev1 =>
      match load_model bm (_args s1) (_kwargs s1) w1 with
      | (Ok m, w2) =>
          Outcome (Ok m) (set___llm_model__ m s1) w2
                  (ev1 ++ [Ev (C_load_model bm (_args s1) (_kwargs s1)) true false])
      | (Raise e, w2) =>
          Outcome (Raise e) s1 w2
                  (ev1 ++ [Ev (C_load_model bm (_args s1) (_kwargs s1)) false false])
      end
  | Outcome (Raise e) s1 w1 ev1 => Outcome (Raise e) s1 w1 ev1
  end.
Proof.
  intros Hm. unfold model. run. rewrite Hm. run.
  destruct (runM _bentomodel s w) as [[bm|e] s1 w1 ev1]; run; [|done].
  destruct (load_model bm (_args s1) (_kwargs s1) w1) as [[m|e] w2]; run; [|done].
  rewrite guard_llm_model. run. by rewrite app_nil_r.
Qed.

Lemma tokenizer_run_missing s w bm :
  __llm_tokenizer__ s = VNone ->
  res (runM _bentomodel s w) = Ok bm ->
  bentoml.custom_objects bm !! "tokenizer" = None ->
  runM tokenizer s w =
  Outcome (Raise (OpenLLMException "Model does not have tokenizer."))
          (self_after (runM _bentomodel s w)) (world_after (runM _bentomodel s w))
          (events (runM _bentomodel s w)).
Proof.
  intros Ht Hres Hco. unfold tokenizer. run. rewrite Ht. run.
  destruct (runM _bentomodel s w) as [r s1 w1 ev1]. simpl in Hres. subst r.
  run. rewrite Hco. run. by rewrite !app_nil_r.
Qed.

(** With a tokenizer among the custom objects, the accessor returns it and
    memoizes it. *)
Lemma tokenizer_run_present s w bm t :
  __llm_tokenizer__ s = VNone ->
  res (runM _bentomodel s w) = Ok bm ->
  bentoml.custom_objects bm !! "tokenizer" = Some t ->
  runM tokenizer s w =
  Outcome (Ok t)
          (set___llm_tokenizer__ t (self_after (runM _bentomodel s w)))
          (world_after (runM _bentomodel s w))
          (events (runM _bentomodel s w)).
Proof.
  intros Ht Hres Hco. unfold tokenizer. run. rewrite Ht. run.
  destruct (runM _bentomodel s w) as [r s1 w1 ev1]. simpl in Hres. subst r.
  run. rewrite Hco. run. rewrite guard_llm_tokenizer. run. by rewrite !app_nil_r.
Qed.


(** The loads the model accessor itself makes. *)
Lemma model_load_events s w m args kw r :
  Ev (C_load_model m args kw) r false ∈ events (runM model s w) ->
  args = _args s
  /\ kw = match __bentomodel__ s with
          | Some _ => _kwargs s
          | None => delete "trust_remote_code" (_kwargs s)
          end.
Proof.
  destruct (decide (__llm_model__ s = VNone)) as [Hm|Hm].
  2:{ unfold model. run. destruct (__llm_model__ s); try done; run;
      intros H; by apply elem_of_nil in H. }
  rewrite (model_run s w Hm).
  destruct (__bentomodel__ s) as [bm|] eqn:Hb.
  - rewrite (bentomodel_cached s w bm Hb).
    destruct (load_model bm (_args s) (_kwargs s) w) as [[v|e] w2]; simpl;
      intros H; apply list_elem_of_singleton in H; by injection H as -> -> -> ->.
  - pose proof (bentomodel_resolve s w Hb) as Hcases. cbv zeta in Hcases.
    destruct (runM _bentomodel s w) as [[bm|e] s1 w1 ev1] eqn:Hrun;
      cbn [res self_after world_after events] in Hcases.
    + assert (s1 = set___bentomodel__ bm
                     (set__kwargs (delete "trust_remote_code" (_kwargs s)) s)
              /\ forall e, e ∈ ev1 -> forall m' a' k' r', e <> Ev (C_load_model m' a' k') r' false)
        as [-> Hno].
      { destruct Hcases
          as [(e & He & _)|[(bm' & tag' & kw' & Hr & Hs & Hev)
             |[(e & tag' & kw' & He & _)
              |(tag' & kw' & tk & tr & kd & w2 & r0 & w3 & ev & Himp & Hr & _ & Hs & Hev)]]];
          try discriminate.
        - injection Hr as <-. split; [done|]. subst ev1.
          intros e He ? ? ? ? ->. apply elem_of_cons in He as [[=]|He].
          apply list_elem_of_singleton in He as [=].
        - subst r0. split; [done|]. subst ev1.
          intros e He ? ? ? ? ->. apply elem_of_app in He as [He|He].
          + apply elem_of_cons in He as [[=]|He].
            apply list_elem_of_singleton in He as [=].
          + apply import_on_miss_trace in Himp
              as [[-> _]|(c & body & -> & Hc & _)].
            * by apply elem_of_nil in He.
            * apply elem_of_cons in He as [[= <-]|He]; [discriminate Hc|].
              apply within_import_marked in He. discriminate He. }
      destruct (load_model bm _ _ w1) as [[v|e] w2]; simpl;
        intros H; apply elem_of_app in H as [H|H];
        try (exfalso; by eapply Hno);
        apply list_elem_of_singleton in H; by injection H as -> -> -> ->.
    + intros H. exfalso.
      destruct Hcases
        as [(e0 & _ & _ & Hev)|[(bm' & tag' & kw' & Hr & _)
           |[(e0 & tag' & kw' & _ & _ & Hev)
            |(tag' & kw' & tk & tr & kd & w2 & r0 & w3 & ev & Himp & Hr & _ & _ & Hev)]]].
      * apply Hev in H as (? & ? & ? & [=]).
      * discriminate.
      * subst ev1. apply elem_of_cons in H as [[=]|H].
        apply list_elem_of_singleton in H as [=].
      * subst ev1. apply elem_of_app in H as [H|H].
        -- apply elem_of_cons in H as [[=]|H].
           apply list_elem_of_singleton in H as [=].
        -- apply import_on_miss_trace in Himp
             as [[-> _]|(c & body & -> & Hc & _)].
           ++ by apply elem_of_nil in H.
           ++ apply elem_of_cons in H as [[= <-]|H]; [discriminate Hc|].
              apply within_import_marked in H. discriminate H.
Qed.

(** What a first resolution does to the instance, returning or raising. *)
Lemma bentomodel_kwargs s w :
  __bentomodel__ s = None ->
  _kwargs (self_after (runM _bentomodel s w)) = delete "trust_remote_code" (_kwargs s)
  /\ _args (self_after (runM _bentomodel s w)) = _args s.
Proof.
  intros Hb.
  destruct (bentomodel_resolve s w Hb)
    as [(e & _ & -> & _)|[(bm' & tag' & kw & _ & -> & _)
       |[(e & tag' & kw & _ & -> & _)
        |(tag' & kw & tk & tr & kd & w2 & r & w3 & ev & _ & _ & _ & -> & _)]]];
    try done.
  by destruct r.
Qed.

(** C10.  The first evaluation of the artifact accessor, whether it returns
    or raises, leaves [self._kwargs] as it was except that the
    ["trust_remote_code"] entry is gone; every load the model accessor makes
    afterwards, and the load of a model accessor that triggers the
    resolution itself, passes exactly these keyword arguments. *)
Theorem resolution_pops_trust_remote_code s w :
  __bentomodel__ s = None ->
  let o := runM _bentomodel s w in
  _kwargs (self_after o) = delete "trust_remote_code" (_kwargs s)
  /\ _kwargs (self_after o) !! "trust_remote_code" = None
  /\ (forall k, k <> "trust_remote_code" -> _kwargs (self_after o) !! k = _kwargs s !! k)
  /\ (forall m args kw r,
        Ev (C_load_model m args kw) r false
          ∈ events (runM model (self_after o) (world_after o)) ->
        kw = delete "trust_remote_code" (_kwargs s))
  /\ (forall m args kw r,
        Ev (C_load_model m args kw) r false ∈ events (runM model s w) ->
        kw = delete "trust_remote_code" (_kwargs s)).
Proof.
  intros Hb o. destruct (bentomodel_kwargs s w Hb) as [Hk _]. fold o in Hk.
  split; [exact Hk|]. rewrite Hk.
  split; [apply lookup_delete_eq|].
  split; [intros k Hne; by apply lookup_delete_ne|].
  split.
  - intros m args kw r Hin. apply model_load_events in Hin as [_ ->].
    rewrite Hk. destruct (__bentomodel__ (self_after o)); [done|].
    apply map_eq. intros k. destruct (decide (k = "trust_remote_code")) as [->|Hne].
    + by rewrite !lookup_delete_eq.
    + by rewrite lookup_delete_ne.
  - intros m args kw r Hin. apply model_load_events in Hin as [_ ->].
    by rewrite Hb.
Qed.

(** ** Construction *)

Lemma init_run cls pretrained llm_config args kwargs w :
  runB (__init__ cls pretrained llm_config args kwargs) w =
  match init_config cls llm_config kwargs with
  | Raise e => (Raise e, w, [])
  | Ok (cfg, kw) =>
      match
        match pretrained with
        | Some p => Ok p
        | None =>
            if str_truthy (environ w !! pretrained_envvar cfg)
            then Ok (default "" (environ w !! pretrained_envvar cfg))
            else static_default cls
        end
      with
      | Ok p => (Ok (mkLLM cls cfg p args kw None VNone VNone ∅), w, [])
      | Raise e => (Raise e, w, [])
      end
  end.
Proof.
  unfold __init__. run.
  destruct (init_config cls llm_config kwargs) as [[cfg kw]|e]; [|done].
  destruct pretrained as [p|]; run; [done|].
  destruct (str_truthy (environ w !! pretrained_envvar cfg)); run; [done|].
  by destruct (static_default cls).
Qed.

Example envvar_name : pretrained_envvar flan_config = "OPENLLM_FLAN_T5_PRETRAINED".
Proof. reflexivity. Qed.

(** C7.  Constructing a wrapper makes no call to the store or the backend
    and leaves the world as it was; the instance it returns has the three
    memo slots empty. *)
Theorem init_is_lazy cls pretrained llm_config args kwargs w :
  let '(r, w', ev) := runB (__init__ cls pretrained llm_config args kwargs) w in
  ev = [] /\ w' = w
  /\ forall o, r = Ok o ->
       __bentomodel__ o = None /\ __llm_model__ o = VNone /\ __llm_tokenizer__ o = VNone.
Proof.
  rewrite init_run.
  destruct (init_config cls llm_config kwargs) as [[cfg kw]|e];
    [|by repeat split].
  destruct (match pretrained with Some p => _ | None => _ end) as [p|e].
  - repeat split; by injection H as <-.
  - by repeat split.
Qed.

(** C6.  Without a pretrained name, the name is the value of the family's
    environment variable when that is set and not empty, otherwise the
    class's [default_model]; when that is missing, [None] or empty as
    well, construction raises ([AssertionError] from the [assert], or
    [AttributeError] when the class has no such attribute). *)
Theorem pretrained_fallback cls llm_config args kwargs w cfg kw :
  init_config cls llm_config kwargs = Ok (cfg, kw) ->
  let env := environ w !! pretrained_envvar cfg in
  let r := (runB (__init__ cls None llm_config args kwargs) w).1.1 in
  (forall p, env = Some p -> p <> "" ->
     r = Ok (mkLLM cls cfg p args kw None VNone VNone ∅))
  /\ (str_truthy env = false ->
      forall d, default_model cls = Some (Some d) -> d <> "" ->
      r = Ok (mkLLM cls cfg d args kw None VNone VNone ∅))
  /\ (str_truthy env = false ->
      default_model cls = Some None \/ default_model cls = Some (Some "") ->
      r = Raise (AssertionError "A default model is required for any LLM."))
  /\ (str_truthy env = false -> default_model cls = None ->
      r = Raise (AttributeError "default_model")).
Proof.
  intros Hcfg env r. subst r. rewrite init_run, Hcfg. fold env.
  assert (forall d : string, d <> "" -> String.eqb d "" = false) as Hne
    by (intros d Hd; by apply String.eqb_neq).
  repeat split.
  - intros p Hp Hd. rewrite Hp. simpl. by rewrite (Hne p Hd).
  - intros -> d Hd Hd'. unfold static_default. rewrite Hd. simpl.
    by rewrite (Hne d Hd').
  - intros -> [Hd|Hd]; unfold static_default; by rewrite Hd.
  - intros -> Hd. unfold static_default. by rewrite Hd.
Qed.

(** ** Runners *)

Lemma to_runner_run name models max_batch_size max_latency_ms method_configs
    embedded scheduling_strategy kwargs s w bm :
  res (runM _bentomodel s w) = Ok bm ->
  res (runM (to_runner name models max_batch_size max_latency_ms method_configs
                       embedded scheduling_strategy kwargs) s w)
  = Ok (mkRunner
          (camelize (__openllm_model_name__ (config s)) +:+ "Runnable")
          (method_signatures method_configs).1.2
          (method_signatures method_configs).2
          kwargs
          (default ("llm-" +:+ __openllm_start_name__ (config s) +:+ "-runner") name)
          (default [] models ++ [bm]) max_batch_size max_latency_ms
          (method_signatures method_configs).1.1 embedded
          (default "DefaultStrategy" scheduling_strategy)).
Proof.
  intros Hres. unfold to_runner. run.
  destruct (runM _bentomodel s w) as [r s1 w1 ev1]. simpl in Hres. subst r.
  by destruct (method_signatures method_configs) as [[mc g] gi].
Qed.

(** C8.  A runner built without method configs has a non-batchable
    [generate] and a batchable [generate_iterator]; with method configs,
    each of the two methods takes the signature the caller gave under its
    name and keeps its default when the caller did not name it. *)
Theorem runner_method_contracts name models max_batch_size max_latency_ms
    method_configs embedded scheduling_strategy kwargs s w bm :
  res (runM _bentomodel s w) = Ok bm ->
  exists r,
    res (runM (to_runner name models max_batch_size max_latency_ms method_configs
                         embedded scheduling_strategy kwargs) s w) = Ok r
    /\ (method_configs = None ->
        batchable (runnable_generate r) = false
        /\ batchable (runnable_generate_iterator r) = true)
    /\ (forall mc, method_configs = Some mc ->
        runnable_generate r =
          match mc !! "generate" with
          | Some (inl d) => from_dict d
          | Some (inr sig) => sig
          | None => from_dict (ModelSignatureDict_batchable false)
          end
        /\ runnable_generate_iterator r =
          match mc !! "generate_iterator" with
          | Some (inl d) => from_dict d
          | Some (inr sig) => sig
          | None => from_dict (ModelSignatureDict_batchable true)
          end)
    /\ batchable (from_dict (ModelSignatureDict_batchable false)) = false
    /\ batchable (from_dict (ModelSignatureDict_batchable true)) = true.
Proof.
  intros Hres. eexists. split; [by apply to_runner_run|].
  cbn [runnable_generate runnable_generate_iterator].
  split; [by intros ->|].
  split; [|done].
  intros mc ->. cbn [method_signatures fst snd]. unfold convert_signatures_dict.
  rewrite !lookup_fmap.
  by destruct (mc !! "generate") as [[d|sig]|],
              (mc !! "generate_iterator") as [[d'|sig']|].
Qed.

(** ** ChatGLM *)

(** The override of [ChatGLM] receives [trust_remote_code] among its keyword
    arguments and passes [trust_remote_code=True] next to them: whenever
    [_bentomodel] calls it, the call of [from_pretrained] inside is a
    [TypeError], and nothing is loaded or saved. *)
Lemma ChatGLM_override_raises pretrained tag args tokenizer_kwds trust kwds w :
  exists msg,
    (runB (call_override ChatGLM_import_model pretrained tag args tokenizer_kwds
                         trust kwds) w).1.1
    = Raise (TypeError msg).
Proof.
  unfold call_override, explicit_keywords. run.
  destruct (bool_decide _); run; [|by eexists].
  unfold ChatGLM_import_model. run. cbn [keywords].
  rewrite decide_True by apply map_disjoint_empty_r.
  rewrite decide_False; [run; by eexists|].
  intros Hdisj.
  apply (map_disjoint_spec _ _) with (i := "trust_remote_code")
                                     (x := VBool true) (y := trust) in Hdisj; [done| |].
  - apply lookup_singleton_eq.
  - apply lookup_union_Some_l, lookup_insert_eq.
Qed.

(** C9, as amended.  No call of [ChatGLM.generate] gets past its first
    assignment to [self.model], so [respond] never runs.  The right-hand
    side is evaluated first: when the model accessor raises, or the
    conversion method does, that error is the one raised; otherwise the
    write is refused with [ForbiddenAttributeError]. *)
Theorem generate_never_responds respond prompt kwargs s w :
  let o := runM (ChatGLM_generate respond prompt kwargs) s w in
  let method :=
    if cuda_is_available w
    then (if use_half_precision (config s) then "half" else "cuda")
    else "float" in
  let om := runM model s w in
  (forall respond', runM (ChatGLM_generate respond' prompt kwargs) s w = o)
  /\ match res om with
     | Raise e => res o = Raise e
     | Ok m =>
         match (call_method method m [] (world_after om)).1 with
         | Raise e => res o = Raise e
         | Ok _ => res o = Raise (ForbiddenAttributeError "model")
         end
     end.
Proof.
  unfold ChatGLM_generate, convert_model, assign. run.
  destruct (cuda_is_available w); [destruct (use_half_precision (config s))|];
    run;
    (destruct (runM model s w) as [[m|e] s1 w1 ev1]; run; [|done]);
    (destruct (call_method _ m [] w1) as [[m'|e] w2]; run; [|done]);
    rewrite guard_model; run; done.
Qed.
End Resolution.

(** ** The properties at concrete inputs *)

(** The calls of a first resolution that misses and imports with the
    default routine: callee, whether it returned, whether it was made inside
    the import routine. *)
Example first_resolution_trace :
  map (fun e => (call_name (call_of e), returned e, in_import e))
      (events (runM _bentomodel (new_instance FlanT5 flan_small ∅) empty_world))
  = [ ("generate_tags", true, false);
      ("bentoml.transformers.get", false, false);
      ("import_model", true, false);
      ("AutoConfig.from_pretrained", true, true);
      ("AutoModelForCausalLM.from_pretrained", true, true);
      ("AutoTokenizer.from_pretrained", true, true);
      ("bentoml.transformers.save_model", true, true) ].
Proof. vm_compute. reflexivity. Qed.

(** The same on a [ChatGLM] handle: the override is entered and raises before
    it loads anything. *)
Example ChatGLM_resolution_trace :
  map (fun e => (call_name (call_of e), returned e, in_import e))
      (events (runM _bentomodel chatglm_instance empty_world))
  = [ ("generate_tags", true, false);
      ("bentoml.transformers.get", false, false);
      ("import_model", false, false) ].
Proof. vm_compute. reflexivity. Qed.

(** A store miss followed by a successful default import, then a second call. *)
Lemma artifact_memoized_witness :
  let o1 := runM _bentomodel (new_instance FlanT5 flan_small ∅) empty_world in
  let o2 := runM _bentomodel (self_after o1) (world_after o1) in
  o2 = Outcome (Ok stored_handle) (self_after o1) (world_after o1) []
  /\ count is_get (events o1 ++ events o2) = 1
  /\ (forall tag, Ev (C_get tag) true false ∈ events o1 ->
        count is_import (events o1 ++ events o2) = 0
        /\ count is_save (events o1 ++ events o2) = 0)
  /\ (forall tag, Ev (C_get tag) false false ∈ events o1 ->
        count is_import (events o1 ++ events o2) = 1
        /\ (import_model_method (class_of (new_instance FlanT5 flan_small ∅)) = None ->
            count is_save (events o1 ++ events o2) = 1)).
Proof.
  apply (proj1 (artifact_memoized (new_instance FlanT5 flan_small ∅) empty_world eq_refl)
               stored_handle).
  vm_compute. reflexivity.
Defined.

(** C1 as stated fails: when the import raises, nothing is memoized and the
    second call looks the tag up and imports again. *)
Lemma failed_resolution_is_repeated :
  let s := new_instance FlanT5 "offline/model" ∅ in
  let o1 := runM _bentomodel s empty_world in
  let o2 := runM _bentomodel (self_after o1) (world_after o1) in
  __bentomodel__ s = None
  /\ res o1 = Raise (OtherError "OSError")
  /\ count is_get (events o1 ++ events o2) = 2
  /\ count is_import (events o1 ++ events o2) = 2
  /\ count is_save (events o1 ++ events o2) = 0.
Proof. vm_compute. repeat split; reflexivity. Qed.

Lemma cache_hit_no_import_witness :
  let o := runM _bentomodel (new_instance FlanT5 flan_small ∅) (world_with stored_handle) in
  count is_import (events o) = 0
  /\ count is_save (events o) = 0
  /\ exists bm, res o = Ok bm /\ __bentomodel__ (self_after o) = Some bm.
Proof.
  apply (cache_hit_no_import _ _ flan_small).
  apply list_elem_of_In. vm_compute. right. left. reflexivity.
Defined.


Lemma pretrained_fallback_witness :
  (runB (__init__ FlanT5 None None [] ∅) env_world).1.1
  = Ok (mkLLM FlanT5 flan_config "google/flan-t5-xl" [] ∅ None VNone VNone ∅)
  /\ (runB (__init__ FlanT5 None None [] ∅) empty_world).1.1
     = Ok (mkLLM FlanT5 flan_config "google/flan-t5-large" [] ∅ None VNone VNone ∅)
  /\ (runB (__init__ Nameless None (Some flan_config) [] ∅) empty_world).1.1
     = Raise (AssertionError "A default model is required for any LLM.").
Proof.
  split; [|split].
  - apply (proj1 (pretrained_fallback FlanT5 None [] ∅ env_world flan_config ∅ eq_refl)
                 "google/flan-t5-xl"); [reflexivity | by_evaluation].
  - apply (proj1 (proj2 (pretrained_fallback FlanT5 None [] ∅ empty_world flan_config ∅
                                             eq_refl)));
      [reflexivity | reflexivity | by_evaluation].
  - apply (proj1 (proj2 (proj2 (pretrained_fallback Nameless (Some flan_config) [] ∅
                                                    empty_world flan_config ∅ eq_refl))));
      [reflexivity | by left].
Defined.

Lemma init_is_lazy_witness :
  let '(r, w', ev) := runB (__init__ FlanT5 None None [] ∅) empty_world in
  ev = [] /\ w' = empty_world
  /\ forall o, r = Ok o ->
       __bentomodel__ o = None /\ __llm_model__ o = VNone /\ __llm_tokenizer__ o = VNone.
Proof. apply (init_is_lazy FlanT5 None None [] ∅ empty_world). Defined.

(** A caller that names only [generate]: it becomes batchable, the iterator
    keeps its default. *)
Lemma runner_method_contracts_witness :
  exists r,
    res (runM (to_runner None None None None
                         (Some {[ "generate" := inl (ModelSignatureDict_batchable true) ]})
                         false None ∅)
              (new_instance FlanT5 flan_small ∅) (world_with stored_handle)) = Ok r
    /\ batchable (runnable_generate r) = true
    /\ batchable (runnable_generate_iterator r) = true.
Proof.
  destruct (runner_method_contracts
              None None None None
              (Some {[ "generate" := inl (ModelSignatureDict_batchable true) ]})
              false None ∅
              (new_instance FlanT5 flan_small ∅) (world_with stored_handle) stored_handle)
    as (r & Hr & _ & Hmc & _).
  - vm_compute. reflexivity.
  - exists r. split; [exact Hr|].
    destruct (Hmc _ eq_refl) as [-> ->]. split; reflexivity.
Defined.

(** C9 as stated fails: on a store miss the import of [ChatGLM] raises while
    [self.model] is being evaluated, and that error is what [generate]
    raises. *)
Lemma generate_raises_import_error :
  res (runM (ChatGLM_generate answer "hello" ∅) chatglm_instance empty_world)
  = Raise (TypeError "got multiple values for keyword argument")
  /\ res (runM (ChatGLM_generate answer "hello" ∅) chatglm_instance empty_world)
     <> Raise (ForbiddenAttributeError "model").
Proof. split; [vm_compute; reflexivity | vm_compute; discriminate]. Qed.

Lemma resolution_pops_trust_remote_code_witness :
  let s := new_instance FlanT5 flan_small
             {[ "trust_remote_code" := VBool true; "device_map" := VStr "auto" ]} in
  let o := runM _bentomodel s empty_world in
  _kwargs (self_after o) !! "trust_remote_code" = None
  /\ _kwargs (self_after o) !! "device_map" = Some (VStr "auto").
Proof.
  destruct (resolution_pops_trust_remote_code
              (new_instance FlanT5 flan_small
                 {[ "trust_remote_code" := VBool true; "device_map" := VStr "auto" ]})
              empty_world eq_refl) as (_ & Hnone & Hother & _).
  split; [exact Hnone|].
  rewrite (Hother "device_map"); [reflexivity | by_evaluation].
Defined.

(** * Further properties of the source *)

(** ** Keyword arguments at a call site *)

Lemma keywords_cons (d : dict) (rest : list dict) (kw : dict) :
  keywords (d :: rest) = Ok kw ->
  exists acc, keywords rest = Ok acc /\ d ##ₘ acc /\ kw = d ∪ acc.
Proof.
  cbn [keywords]. destruct (keywords rest) as [acc|e]; [|done].
  destruct (decide (d ##ₘ acc)) as [Hd|Hd]; [|done].
  intros [= <-]. by exists acc.
Qed.

(** A successful merge keeps every entry of every part. *)
Lemma keywords_lookup (parts : list dict) (kw : dict) (d : dict) (k : string) (v : value) :
  keywords parts = Ok kw -> d ∈ parts -> d !! k = Some v -> kw !! k = Some v.
Proof.
  revert kw. induction parts as [|p parts IH]; intros kw Hkw Hin Hd.
  - by apply elem_of_nil in Hin.
  - apply keywords_cons in Hkw as (acc & Hacc & Hdisj & ->).
    apply elem_of_cons in Hin as [->|Hin].
    + by apply lookup_union_Some_l.
    + apply lookup_union_Some_raw. destruct (p !! k) as [v'|] eqn:Hp.
      * exfalso. apply (map_disjoint_spec p acc) with (i := k) (x := v') (y := v) in Hdisj;
          [done|done|]. by apply (IH acc).
      * right. split; [done|]. by apply (IH acc).
Qed.

(** And holds nothing else. *)
Lemma keywords_lookup_inv (parts : list dict) (kw : dict) (k : string) (v : value) :
  keywords parts = Ok kw -> kw !! k = Some v -> exists d, d ∈ parts /\ d !! k = Some v.
Proof.
  revert kw. induction parts as [|p parts IH]; intros kw Hkw Hk.
  - injection Hkw as <-. by rewrite lookup_empty in Hk.
  - apply keywords_cons in Hkw as (acc & Hacc & Hdisj & ->).
    apply lookup_union_Some_raw in Hk as [Hk|[_ Hk]].
    + exists p. split; [apply elem_of_cons; by left|done].
    + destruct (IH acc Hacc Hk) as (d & Hd & Hdk). exists d.
      split; [apply elem_of_cons; by right|done].
Qed.

(** The same keyword in two parts is refused. *)
Lemma keywords_twice_raises (parts : list dict) (i j : nat) (d1 d2 : dict) (k : string) :
  parts !! i = Some d1 -> parts !! j = Some d2 -> i <> j ->
  is_Some (d1 !! k) -> is_Some (d2 !! k) ->
  exists msg, keywords parts = Raise (TypeError msg).
Proof.
  assert (forall parts, (exists kw, keywords parts = Ok kw)
                        \/ exists msg, keywords parts = Raise (TypeError msg)) as Hshape.
  { induction parts0 as [|p ps IH]; cbn [keywords]; [left; by eexists|].
    destruct IH as [[acc ->]|[msg ->]]; [|right; by eexists].
    destruct (decide (p ##ₘ acc)); [left|right]; by eexists. }
  intros Hi Hj Hne [v1 H1] [v2 H2].
  destruct (Hshape parts) as [[kw Hkw]|Hr]; [exfalso|done].
  revert i j kw Hi Hj Hne Hkw.
  induction parts as [|p ps IH]; intros i j kw Hi Hj Hne Hkw; [done|].
  apply keywords_cons in Hkw as (acc & Hacc & Hdisj & ->).
  destruct i as [|i], j as [|j]; simpl in Hi, Hj; try done.
  - injection Hi as ->.
    apply (map_disjoint_spec d1 acc) with (i := k) (x := v1) (y := v2) in Hdisj; [done|done|].
    eapply keywords_lookup; [exact Hacc| |exact H2]. by eapply list_elem_of_lookup_2.
  - injection Hj as ->.
    apply (map_disjoint_spec d2 acc) with (i := k) (x := v2) (y := v1) in Hdisj; [done|done|].
    eapply keywords_lookup; [exact Hacc| |exact H1]. by eapply list_elem_of_lookup_2.
  - eapply (IH i j acc); eauto.
Qed.

(** ** The calls of the default import routine *)

(** Membership in a list written out. *)
Ltac in_list := repeat (apply elem_of_cons; first [left; reflexivity | right]).

(** No call of a kind, none counted. *)
Lemma count_none (ev : list Event) :
  (forall e, e ∈ ev -> is_save (Ev (call_of e) true false) = false) ->
  count is_save ev = 0.
Proof.
  induction ev as [|e ev IH]; intros H; [done|]. cbn [count].
  rewrite IH by (intros e' He'; apply H, elem_of_cons; by right).
  specialize (H e (proj2 (elem_of_cons _ _ _) (or_introl eq_refl))).
  unfold is_save in *. cbn [call_of] in H. by rewrite H.
Qed.

Section Calls.
Context {World : Type} {backend : Backend World}.
Implicit Types (w : World) (P : Call -> Prop).

Lemma every_call_ret {A} P (a : A) : every_call P (mret a : B World A).
Proof. intros w r w' ev e [= <- <- <-] He. by apply elem_of_nil in He. Qed.

Lemma every_call_liftR {A} P (r : result A) : every_call P (liftR r : B World A).
Proof. intros w r' w' ev e [= <- <- <-] He. by apply elem_of_nil in He. Qed.

Lemma every_call_raise {A} P (e : exn) : every_call P (raiseB e : B World A).
Proof. intros w r' w' ev e' [= <- <- <-] He. by apply elem_of_nil in He. Qed.

Lemma every_call_call {A} P (c : Call) (f : World -> result A * World) :
  P c -> every_call P (call c f).
Proof.
  intros Hc w r w' ev e. run. destruct (f w) as [r0 w0].
  intros [= <- <- <-] He. by apply list_elem_of_singleton in He as ->.
Qed.

Lemma every_call_bind {A C} P (m : B World A) (k : A -> B World C) :
  every_call P m -> (forall a, every_call P (k a)) -> every_call P (m ≫= k).
Proof.
  intros Hm Hk w r w' ev e. unfold mbind, B_bind. run.
  destruct (runB m w) as [[[a|e0] w1] ev1] eqn:E1.
  - destruct (runB (k a) w1) as [[r2 w2] ev2] eqn:E2.
    intros H He; injection H as <- <- <-.
    apply elem_of_app in He as [He|He].
    + by apply (Hm _ _ _ _ _ E1).
    + by apply (Hk _ _ _ _ _ _ E2).
  - intros H He; injection H as <- <- <-. by apply (Hm _ _ _ _ _ E1).
Qed.

Lemma every_call_bind_liftR {A C} P (r : result A) (k : A -> B World C) :
  (forall a, r = Ok a -> every_call P (k a)) -> every_call P (liftR r ≫= k).
Proof.
  intros Hk w r' w' ev e. unfold mbind, B_bind. run.
  destruct r as [a|e0].
  - destruct (runB (k a) w) as [[r2 w2] ev2] eqn:E2.
    intros H He; injection H as <- <- <-. by apply (Hk a eq_refl _ _ _ _ _ E2).
  - intros H He; injection H as <- <- <-. by apply elem_of_nil in He.
Qed.

Lemma every_call_bind_ret {A C} P (a : A) (k : A -> B World C) :
  every_call P (k a) -> every_call P (mret a ≫= k).
Proof.
  intros Hk w r' w' ev e. unfold mbind, B_bind. run.
  destruct (runB (k a) w) as [[r2 w2] ev2] eqn:E2.
  intros H He; injection H as <- <- <-. by apply (Hk _ _ _ _ _ E2).
Qed.

Lemma every_call_bind_raise {A C} P (e : exn) (k : A -> B World C) :
  every_call P (raiseB e ≫= k).
Proof.
  intros w r' w' ev e'. unfold mbind, B_bind. run.
  intros H He; injection H as <- <- <-. by apply elem_of_nil in He.
Qed.

Lemma hub_name_not_reserved (k : string) :
  k ∈ hub_kwds_names ->
  k <> "config" /\ k <> "trust_remote_code" /\ k <> "return_unused_kwargs".
Proof.
  intros Hk. repeat split; intros ->; revert Hk; by_evaluation.
Qed.

(** What the routine passes on, call by call. *)
Lemma import_model_calls model_name tag framework model_args tokenizer_kwds kwds :
  let trust := default (VBool false) (kwds !! "trust_remote_code") in
  every_call
    (fun c =>
       match c with
       | C_AutoConfig n kw =>
           n = model_name
           /\ is_PretrainedConfig (default VNone (kwds !! "config")) = false
           /\ kw !! "trust_remote_code" = Some trust
           /\ kw !! "return_unused_kwargs" = Some (VBool true)
           /\ kw !! "torch_dtype" <> Some (VStr "auto")
           /\ (forall k v, kwds !! k = Some v ->
                 k <> "config" -> k <> "trust_remote_code" ->
                 (k = "torch_dtype" -> v <> VStr "auto") -> kw !! k = Some v)
       | C_from_pretrained auto_class n args kw =>
           n = model_name /\ args = model_args
           /\ kw !! "trust_remote_code" = Some trust
           /\ (forall k v, k ∈ hub_kwds_names -> kwds !! k = Some v -> kw !! k = Some v)
           /\ (is_PretrainedConfig (default VNone (kwds !! "config")) = true ->
               forall k v, kwds !! k = Some v -> k <> "trust_remote_code" ->
                           kw !! k = Some v)
           /\ exists config classes,
               kw !! "config" = Some config
               /\ _return_tensors_to_framework_map !! framework = Some classes
               /\ (MODEL_FOR_CAUSAL_LM_MAPPING config = true
                   /\ classes !! 0%nat = Some auto_class
                   \/ MODEL_FOR_CAUSAL_LM_MAPPING config = false
                      /\ MODEL_FOR_SEQ_TO_SEQ_CAUSAL_LM_MAPPING config = true
                      /\ classes !! 1%nat = Some auto_class)
       | C_AutoTokenizer n kw =>
           n = model_name
           /\ kw !! "trust_remote_code" = Some trust
           /\ is_Some (kw !! "config")
           /\ (is_PretrainedConfig (default VNone (kwds !! "config")) = true ->
               kw !! "config" = kwds !! "config")
           /\ (forall k v, k ∈ hub_kwds_names -> kwds !! k = Some v -> kw !! k = Some v)
           /\ (forall k v, kw !! k = Some v ->
                 k = "config" \/ k = "trust_remote_code" \/ k ∈ hub_kwds_names
                 \/ tokenizer_kwds !! k = Some v)
           /\ (forall k v, tokenizer_kwds !! k = Some v -> kw !! k = Some v)
       | C_save_model t _ objects =>
           t = tag /\ dom objects = ({[ "tokenizer" ]} : gset string)
       | _ => False
       end)
    (import_model model_name tag framework model_args tokenizer_kwds kwds).
Proof.
  intros trust. unfold import_model.
  set (base := delete "trust_remote_code" (delete "config" kwds)).
  assert (forall k v, k ∈ hub_kwds_names -> kwds !! k = Some v ->
                      filter (fun kv : string * value => kv.1 ∈ hub_kwds_names) base !! k
                      = Some v) as Hhub.
  { intros k v Hk Hv. apply map_lookup_filter_Some. split; [|done].
    destruct (hub_name_not_reserved k Hk) as (? & ? & _).
    subst base. by rewrite !lookup_delete_ne. }
  assert (delete "config" kwds !! "trust_remote_code" = kwds !! "trust_remote_code") as Htr
    by by rewrite lookup_delete_ne.
  rewrite Htr. fold trust.
  match goal with
  | |- every_call ?P (_ ≫= ?K) =>
      assert (forall config kwds',
                (is_PretrainedConfig (default VNone (kwds !! "config")) = true ->
                 Some config = kwds !! "config"
                 /\ kwds' = filter (fun kv : string * value => kv.1 ∉ hub_kwds_names) base) ->
                every_call P (K (config, kwds'))) as Hrest
  end.
  2:{ destruct (is_PretrainedConfig _) eqn:Hpc.
      - apply every_call_bind_ret, Hrest. intros _. split; [|done].
        destruct (kwds !! "config"); [done|discriminate Hpc].
      - apply every_call_bind; [|intros [config kwds']; by apply Hrest].
        apply every_call_bind_liftR. intros kw Hkw. apply every_call_call.
        split; [done|]. split; [done|].
        split; [eapply keywords_lookup; [exact Hkw| |apply lookup_singleton_eq]; in_list|].
        split; [eapply keywords_lookup; [exact Hkw| |apply lookup_singleton_eq]; in_list|].
        split.
        + intros Hauto. apply (keywords_lookup_inv _ _ _ _ Hkw) in Hauto as (d & Hd & Hdk).
          repeat (apply elem_of_cons in Hd as [->|Hd]).
          * by rewrite lookup_singleton_ne in Hdk.
          * by rewrite lookup_singleton_ne in Hdk.
          * apply map_lookup_filter_Some in Hdk as [_ Hdk]. revert Hdk. by_evaluation.
          * case_bool_decide as Hb; [by rewrite lookup_delete_eq in Hdk|done].
          * by apply elem_of_nil in Hd.
        + intros k v Hv Hc Ht Hd.
          destruct (decide (k ∈ hub_kwds_names)) as [Hk|Hk].
          * eapply keywords_lookup; [exact Hkw| |by apply Hhub]. in_list.
          * assert (filter (fun kv : string * value => kv.1 ∉ hub_kwds_names) base !! k
                    = Some v) as Hf.
            { apply map_lookup_filter_Some. split; [|done].
              subst base. by rewrite !lookup_delete_ne. }
            case_bool_decide as Hb.
            -- eapply (keywords_lookup _ _ (delete "torch_dtype" _));
                 [exact Hkw|in_list|].
               rewrite lookup_delete_ne; [exact Hf|]. intros <-.
               rewrite Hf in Hb. injection Hb as ->. by apply Hd.
            -- eapply (keywords_lookup _ _ (filter (fun kv : string * value => kv.1 ∉ hub_kwds_names)
                                               base)); [exact Hkw|in_list|exact Hf]. }
  intros config kwds' Hgiven. cbn beta iota.
  assert (forall C (k : string -> B World C) P,
            (forall task_type,
               MODEL_FOR_CAUSAL_LM_MAPPING config = true /\ task_type = "text-generation"
               \/ MODEL_FOR_CAUSAL_LM_MAPPING config = false
                  /\ MODEL_FOR_SEQ_TO_SEQ_CAUSAL_LM_MAPPING config = true
                  /\ task_type = "text2text-generation" ->
               every_call P (k task_type)) ->
            every_call P
              ((if MODEL_FOR_CAUSAL_LM_MAPPING config then mret "text-generation"
                else if MODEL_FOR_SEQ_TO_SEQ_CAUSAL_LM_MAPPING config
                     then mret "text2text-generation"
                     else raiseB (OpenLLMException "Model type is not supported yet."))
               ≫= k)) as Hclassify.
  { intros C k P Hk.
    destruct (MODEL_FOR_CAUSAL_LM_MAPPING config);
      [apply every_call_bind_ret, Hk; by left|].
    destruct (MODEL_FOR_SEQ_TO_SEQ_CAUSAL_LM_MAPPING config);
      [apply every_call_bind_ret, Hk; by right|].
    apply every_call_bind_raise. }
  apply Hclassify. clear Hclassify.
  intros task_type Htask.
  apply every_call_bind_liftR. intros classes Hclasses.
  destruct (_return_tensors_to_framework_map !! framework) as [classes'|] eqn:Hfw;
    [|done]. injection Hclasses as ->.
  apply every_call_bind_liftR. intros task Htt.
  apply every_call_bind_liftR. intros auto_class Hac.
  destruct (classes !! (TaskType_value task - 1)%nat) as [c|] eqn:Hidx; [|done].
  injection Hac as ->.
  apply every_call_bind_liftR. intros kw Hkw.
  apply every_call_bind.
  { apply every_call_call. split; [done|]. split; [done|].
    split; [eapply keywords_lookup; [exact Hkw| |apply lookup_singleton_eq]; in_list|].
    split.
    { intros k v Hk Hv. eapply keywords_lookup; [exact Hkw| |by apply Hhub]. in_list. }
    assert (kw !! "config" = Some config) as Hcfg
      by (eapply keywords_lookup; [exact Hkw| |apply lookup_singleton_eq]; in_list).
    split.
    { intros Hpc k v Hv Ht. destruct (Hgiven Hpc) as [Hc ->].
      destruct (decide (k = "config")) as [->|Hnc]; [by rewrite Hcfg, Hc|].
      destruct (decide (k ∈ hub_kwds_names)) as [Hk|Hk].
      - eapply keywords_lookup; [exact Hkw| |by apply Hhub]. in_list.
      - eapply (keywords_lookup _ _ (filter (fun kv : string * value => kv.1 ∉ hub_kwds_names)
                                               base)); [exact Hkw|in_list|].
        apply map_lookup_filter_Some. split; [|done].
        subst base. by rewrite !lookup_delete_ne. }
    exists config, classes.
    split; [exact Hcfg|].
    split; [done|].
    destruct Htask as [[Hc ->]|(Hc & Hs & ->)]; injection Htt as <-; [left|right]; done. }
  intros model.
  apply every_call_bind_liftR. intros kwt Hkwt.
  apply every_call_bind.
  { apply every_call_call. split; [done|].
    split; [eapply keywords_lookup; [exact Hkwt| |apply lookup_singleton_eq]; in_list|].
    assert (kwt !! "config" = Some config) as Hcfg
      by (eapply keywords_lookup; [exact Hkwt| |apply lookup_singleton_eq]; in_list).
    split; [by exists config|].
    split; [intros Hpc; rewrite Hcfg; by apply Hgiven|].
    split.
    { intros k v Hk Hv. eapply keywords_lookup; [exact Hkwt| |by apply Hhub]. in_list. }
    split.
    - intros k v Hk. apply (keywords_lookup_inv _ _ _ _ Hkwt) in Hk as (d & Hd & Hdk).
      repeat (apply elem_of_cons in Hd as [->|Hd]).
      + left. apply lookup_singleton_Some in Hdk. by destruct Hdk.
      + right. left. apply lookup_singleton_Some in Hdk. by destruct Hdk.
      + right. right. left. by apply map_lookup_filter_Some in Hdk as [_ Hdk].
      + by repeat right.
      + by apply elem_of_nil in Hd.
    - intros k v Hk. eapply keywords_lookup; [exact Hkwt| |exact Hk]. in_list. }
  intros tokenizer. apply every_call_call. split; [done|].
  by rewrite dom_singleton_L.
Qed.

Lemma every_call_run {A} P (m : B World A) w e :
  every_call P m -> e ∈ (runB m w).2 -> P (call_of e).
Proof.
  intros H He. destruct (runB m w) as [[r w'] ev] eqn:E. by apply (H _ _ _ _ _ E).
Qed.

(** X1.  Every loader the default import routine calls (the configuration
    lookup, the model class, the tokenizer) is given [trust_remote_code]
    with the caller's value, and with [False] when the caller gave none. *)
Theorem import_model_forwards_trust_remote_code model_name tag framework model_args
    tokenizer_kwds kwds w e kw :
  e ∈ (runB (import_model model_name tag framework model_args tokenizer_kwds kwds) w).2 ->
  loader_keywords (call_of e) = Some kw ->
  kw !! "trust_remote_code" = Some (default (VBool false) (kwds !! "trust_remote_code")).
Proof.
  intros He Hkw. apply (every_call_run _ _ _ _ (import_model_calls _ _ _ _ _ _)) in He.
  destruct (call_of e); try done; injection Hkw as ->; tauto.
Qed.

(** X2.  The hub keywords of the caller ([cache_dir], [revision],
    [use_auth_token] and the others of [hub_kwds_names]) reach every loader
    the routine calls, the tokenizer's included. *)
Theorem import_model_forwards_hub_keywords model_name tag framework model_args
    tokenizer_kwds kwds w e kw k v :
  e ∈ (runB (import_model model_name tag framework model_args tokenizer_kwds kwds) w).2 ->
  loader_keywords (call_of e) = Some kw ->
  k ∈ hub_kwds_names -> kwds !! k = Some v ->
  kw !! k = Some v.
Proof.
  intros He Hkw Hk Hv.
  apply (every_call_run _ _ _ _ (import_model_calls _ _ _ _ _ _)) in He.
  destruct (call_of e); try done; injection Hkw as ->.
  - destruct He as (_ & _ & _ & _ & _ & Hfw). apply Hfw; [done| | |].
    + by destruct (hub_name_not_reserved k Hk) as (? & _).
    + by destruct (hub_name_not_reserved k Hk) as (_ & ? & _).
    + intros ->. revert Hk. by_evaluation.
  - destruct He as (_ & _ & _ & Hfw & _). by apply Hfw.
  - destruct He as (_ & _ & _ & _ & Hfw & _). by apply Hfw.
Qed.

(** X3.  The model is loaded under the given name with the caller's
    positional arguments, by the class that the framework table gives for
    the configuration handed to the loader: the first entry of the
    framework's pair for a causal configuration, the second for a
    sequence-to-sequence one.  No model is loaded for an unknown framework
    or an unsupported configuration. *)
Theorem import_model_auto_class model_name tag framework model_args tokenizer_kwds kwds
    w e auto_class n args kw :
  e ∈ (runB (import_model model_name tag framework model_args tokenizer_kwds kwds) w).2 ->
  call_of e = C_from_pretrained auto_class n args kw ->
  n = model_name /\ args = model_args
  /\ exists config classes,
       kw !! "config" = Some config
       /\ _return_tensors_to_framework_map !! framework = Some classes
       /\ (MODEL_FOR_CAUSAL_LM_MAPPING config
           || MODEL_FOR_SEQ_TO_SEQ_CAUSAL_LM_MAPPING config = true)
       /\ classes !! (if MODEL_FOR_CAUSAL_LM_MAPPING config then 0 else 1)%nat
          = Some auto_class.
Proof.
  intros He Hc. apply (every_call_run _ _ _ _ (import_model_calls _ _ _ _ _ _)) in He.
  rewrite Hc in He.
  destruct He as (-> & -> & _ & _ & _ & config & classes & Hcfg & Hfw & Hcls).
  split; [done|]. split; [done|]. exists config, classes.
  split; [done|]. split; [done|].
  destruct Hcls as [[-> Hi]|(-> & -> & Hi)]; by split.
Qed.

(** X4.  The tokenizer is loaded under the given name with every keyword of
    [tokenizer_kwds]; apart from [config], [trust_remote_code] and the hub
    keywords it is given nothing else, so no keyword meant for the model
    reaches it. *)
Theorem import_model_tokenizer_keywords model_name tag framework model_args
    tokenizer_kwds kwds w e n kw :
  e ∈ (runB (import_model model_name tag framework model_args tokenizer_kwds kwds) w).2 ->
  call_of e = C_AutoTokenizer n kw ->
  n = model_name
  /\ (forall k v, tokenizer_kwds !! k = Some v -> kw !! k = Some v)
  /\ (forall k, k <> "config" -> k <> "trust_remote_code" -> k ∉ hub_kwds_names ->
                kw !! k = tokenizer_kwds !! k).
Proof.
  intros He Hc. apply (every_call_run _ _ _ _ (import_model_calls _ _ _ _ _ _)) in He.
  rewrite Hc in He. destruct He as (-> & _ & _ & _ & _ & Honly & Hall).
  split; [done|]. split; [done|].
  intros k Hk1 Hk2 Hk3. destruct (kw !! k) as [v|] eqn:Hkw.
  - destruct (Honly k v Hkw) as [?|[?|[?|?]]]; done.
  - destruct (tokenizer_kwds !! k) as [v|] eqn:Ht; [|done].
    apply Hall in Ht. congruence.
Qed.

(** X5.  With a [PretrainedConfig] among the keywords, the routine makes no
    configuration lookup: every loader it calls is given that configuration
    object, and the model loader every other keyword of the caller except
    [trust_remote_code], which is passed on its own. *)
Theorem import_model_given_config model_name tag framework model_args tokenizer_kwds kwds
    cfg w e kw :
  kwds !! "config" = Some cfg -> is_PretrainedConfig cfg = true ->
  e ∈ (runB (import_model model_name tag framework model_args tokenizer_kwds kwds) w).2 ->
  loader_keywords (call_of e) = Some kw ->
  (forall n kw', call_of e <> C_AutoConfig n kw')
  /\ kw !! "config" = Some cfg
  /\ (forall auto_class n args, call_of e = C_from_pretrained auto_class n args kw ->
       forall k v, kwds !! k = Some v -> k <> "trust_remote_code" -> kw !! k = Some v).
Proof.
  intros Hcfg Hpc He Hkw.
  apply (every_call_run _ _ _ _ (import_model_calls _ _ _ _ _ _)) in He.
  assert (is_PretrainedConfig (default VNone (kwds !! "config")) = true) as Hpc'
    by (by rewrite Hcfg).
  rewrite Hpc' in He.
  destruct (call_of e); try done; injection Hkw as ->.
  - by destruct He as (_ & ? & _).
  - destruct He as (_ & _ & _ & _ & Hall & _).
    split; [done|]. split; [by apply Hall|].
    intros ? ? ? _ k v Hk Hne. by apply Hall.
  - destruct He as (_ & _ & _ & Hc & _).
    split; [done|]. split; [by rewrite Hc|]. intros ? ? ? [=].
Qed.

(** X6.  The configuration lookup is made only when no [PretrainedConfig]
    was passed; it asks for the unused keywords back, is given the caller's
    model keywords, and is never given [torch_dtype="auto"]. *)
Theorem import_model_config_lookup model_name tag framework model_args tokenizer_kwds kwds
    w e n kw :
  e ∈ (runB (import_model model_name tag framework model_args tokenizer_kwds kwds) w).2 ->
  call_of e = C_AutoConfig n kw ->
  n = model_name
  /\ is_PretrainedConfig (default VNone (kwds !! "config")) = false
  /\ kw !! "return_unused_kwargs" = Some (VBool true)
  /\ kw !! "torch_dtype" <> Some (VStr "auto")
  /\ (forall k v, kwds !! k = Some v -> k <> "config" -> k <> "trust_remote_code" ->
                  (k = "torch_dtype" -> v <> VStr "auto") -> kw !! k = Some v).
Proof.
  intros He Hc. apply (every_call_run _ _ _ _ (import_model_calls _ _ _ _ _ _)) in He.
  rewrite Hc in He. tauto.
Qed.

(** ** Where the import routine stops *)

Lemma fails_raise {A} (e : exn) : fails (raiseB e : B World A).
Proof. by intros w r w' ev [= <- <- <-]. Qed.

Lemma fails_bind_l {A C} (m : B World A) (k : A -> B World C) :
  fails m -> fails (m ≫= k).
Proof.
  intros Hm w r w' ev. unfold mbind, B_bind. run.
  destruct (runB m w) as [[[a|e0] w1] ev1] eqn:E1.
  - by apply Hm in E1.
  - by intros [= <- <- <-].
Qed.

Lemma fails_bind_r {A C} (m : B World A) (k : A -> B World C) :
  (forall a, fails (k a)) -> fails (m ≫= k).
Proof.
  intros Hk w r w' ev. unfold mbind, B_bind. run.
  destruct (runB m w) as [[[a|e0] w1] ev1] eqn:E1.
  - destruct (runB (k a) w1) as [[r2 w2] ev2] eqn:E2.
    intros H; injection H as <- <- <-. by apply (Hk _ _ _ _ _ E2).
  - by intros [= <- <- <-].
Qed.

Lemma fails_bind_liftR {A C} (r : result A) (k : A -> B World C) :
  (forall a, r = Ok a -> fails (k a)) -> fails (liftR r ≫= k).
Proof.
  intros Hk w r' w' ev. unfold mbind, B_bind. run. destruct r as [a|e0].
  - destruct (runB (k a) w) as [[r2 w2] ev2] eqn:E2.
    intros H; injection H as <- <- <-. by apply (Hk a eq_refl _ _ _ _ E2).
  - by intros [= <- <- <-].
Qed.

Lemma fails_run {A} (m : B World A) w : fails m -> is_Ok (runB m w).1.1 = false.
Proof. intros H. destruct (runB m w) as [[r w'] ev] eqn:E. by apply (H _ _ _ _ E). Qed.

Lemma saves_last_save tag model tokenizer :
  saves_last tag (call (C_save_model tag model {[ "tokenizer" := tokenizer ]})
                       (save_model tag model {[ "tokenizer" := tokenizer ]})).
Proof.
  intros w r w' ev. run. destruct (save_model _ _ _ w) as [r0 w0].
  intros [= <- <- <-]. right. by exists [], model, tokenizer.
Qed.

Lemma saves_last_bind {A} tag (m : B World A) (k : A -> B World bentoml.Model) :
  (forall w r w' ev, runB m w = (r, w', ev) -> count is_save ev = 0) ->
  (forall a, saves_last tag (k a)) -> saves_last tag (m ≫= k).
Proof.
  intros Hm Hk w r w' ev. unfold mbind, B_bind. run.
  destruct (runB m w) as [[[a|e0] w1] ev1] eqn:E1.
  - destruct (runB (k a) w1) as [[r2 w2] ev2] eqn:E2.
    intros H; injection H as <- <- <-.
    destruct (Hk a _ _ _ _ E2) as [[Hr Hc]|(ev0 & model & tokenizer & -> & Hc)].
    + left. split; [done|]. by rewrite count_app, (Hm _ _ _ _ E1), Hc.
    + right. exists (ev1 ++ ev0), model, tokenizer.
      split; [by rewrite app_assoc|]. by rewrite count_app, (Hm _ _ _ _ E1), Hc.
  - intros H; injection H as <- <- <-. left. split; [done|]. by apply (Hm _ _ _ _ E1).
Qed.

Lemma saves_last_raise tag (e : exn) :
  saves_last tag (raiseB e : B World bentoml.Model).
Proof. intros w r w' ev [= <- <- <-]. by left. Qed.

Lemma no_save_ret {A} (a : A) w r w' ev :
  runB (mret a : B World A) w = (r, w', ev) -> count is_save ev = 0.
Proof. by intros [= <- <- <-]. Qed.

Lemma no_save_liftR {A} (r0 : result A) w r w' ev :
  runB (liftR r0 : B World A) w = (r, w', ev) -> count is_save ev = 0.
Proof. by intros [= <- <- <-]. Qed.

Lemma no_save_call {A} (c : Call) (f : World -> result A * World) w r w' ev :
  is_save (Ev c true false) = false ->
  runB (call c f) w = (r, w', ev) -> count is_save ev = 0.
Proof.
  intros Hc. run. destruct (f w) as [r0 w0]. intros [= <- <- <-].
  simpl. unfold is_save in *. simpl in *. by rewrite Hc.
Qed.

Lemma import_model_saves_last_gen model_name tag framework model_args tokenizer_kwds kwds :
  saves_last tag (import_model model_name tag framework model_args tokenizer_kwds kwds).
Proof.
  unfold import_model.
  apply saves_last_bind.
  { intros w r w' ev. destruct (is_PretrainedConfig _); [apply no_save_ret|].
    unfold mbind, B_bind. run. destruct (keywords _) as [kw|e0].
    - destruct (AutoConfig_from_pretrained _ _ w) as [r0 w0]. by intros [= <- <- <-].
    - by intros [= <- <- <-]. }
  intros [config kwds'].
  apply saves_last_bind.
  { intros w r w' ev.
    destruct (MODEL_FOR_CAUSAL_LM_MAPPING config); [apply no_save_ret|].
    destruct (MODEL_FOR_SEQ_TO_SEQ_CAUSAL_LM_MAPPING config); [apply no_save_ret|].
    by intros [= <- <- <-]. }
  intros task_type.
  apply saves_last_bind; [intros w r w' ev; apply no_save_liftR|]. intros classes.
  apply saves_last_bind; [intros w r w' ev; apply no_save_liftR|]. intros task.
  apply saves_last_bind; [intros w r w' ev; apply no_save_liftR|]. intros auto_class.
  apply saves_last_bind; [intros w r w' ev; apply no_save_liftR|]. intros kw.
  apply saves_last_bind; [intros w r w' ev; by apply no_save_call|]. intros model.
  apply saves_last_bind; [intros w r w' ev; apply no_save_liftR|]. intros kwt.
  apply saves_last_bind; [intros w r w' ev; by apply no_save_call|]. intros tokenizer.
  apply saves_last_save.
Qed.

(** X7.  The default import routine saves at most once, and only as its
    last call: under the tag it was given, with the tokenizer as the only
    custom object; the routine returns exactly when that save returns.
    When anything before the save raises, nothing is saved. *)
Theorem import_model_saves_last model_name tag framework model_args tokenizer_kwds kwds w :
  let '(r, _, ev) :=
    runB (import_model model_name tag framework model_args tokenizer_kwds kwds) w in
  (is_Ok r = false /\ count is_save ev = 0)
  \/ exists ev0 model tokenizer,
       ev = ev0 ++ [Ev (C_save_model tag model {[ "tokenizer" := tokenizer ]})
                       (is_Ok r) false]
       /\ count is_save ev0 = 0.
Proof.
  destruct (runB _ w) as [[r w'] ev] eqn:E.
  by apply (import_model_saves_last_gen _ _ _ _ _ _ _ _ _ _ E).
Qed.

(** X8.  For a framework that is not in the table ("pt", "tf", "flax"), the
    routine never returns a handle and calls nothing but the configuration
    lookup: no model or tokenizer is loaded and nothing is saved. *)
Theorem import_model_unknown_framework model_name tag framework model_args
    tokenizer_kwds kwds w :
  _return_tensors_to_framework_map !! framework = None ->
  let '(r, _, ev) :=
    runB (import_model model_name tag framework model_args tokenizer_kwds kwds) w in
  is_Ok r = false
  /\ forall e, e ∈ ev -> exists n kw, call_of e = C_AutoConfig n kw.
Proof.
  intros Hfw.
  pose (m := import_model model_name tag framework model_args tokenizer_kwds kwds).
  assert (fails m) as Hfails.
  { subst m. unfold import_model. apply fails_bind_r. intros [config kwds'].
    apply fails_bind_r. intros task_type. rewrite Hfw. by apply fails_bind_liftR. }
  assert (every_call (fun c => exists n kw, c = C_AutoConfig n kw) m) as Hcalls.
  { subst m. unfold import_model. apply every_call_bind.
    - destruct (is_PretrainedConfig _); [apply every_call_ret|].
      apply every_call_bind_liftR. intros kw _. apply every_call_call. by eexists _, _.
    - intros [config kwds']. apply every_call_bind.
      + destruct (MODEL_FOR_CAUSAL_LM_MAPPING config); [apply every_call_ret|].
        destruct (MODEL_FOR_SEQ_TO_SEQ_CAUSAL_LM_MAPPING config);
          [apply every_call_ret|apply every_call_raise].
      + intros task_type. rewrite Hfw. by apply every_call_bind_liftR. }
  fold m. destruct (runB m w) as [[r w'] ev] eqn:E. split.
  - by apply (Hfails _ _ _ _ E).
  - intros e He. by apply (Hcalls _ _ _ _ _ E).
Qed.

(** X9.  A tokenizer keyword named [config] or [trust_remote_code], or
    named like a hub keyword the caller also gave, collides with what the
    routine passes to the tokenizer loader itself: the routine never
    returns a handle, the tokenizer is not loaded and nothing is saved. *)
Theorem import_model_tokenizer_keyword_clash model_name tag framework model_args
    tokenizer_kwds kwds w k :
  is_Some (tokenizer_kwds !! k) ->
  k = "config" \/ k = "trust_remote_code"
  \/ (k ∈ hub_kwds_names /\ is_Some (kwds !! k)) ->
  let '(r, _, ev) :=
    runB (import_model model_name tag framework model_args tokenizer_kwds kwds) w in
  is_Ok r = false
  /\ count is_save ev = 0
  /\ forall e n kw, e ∈ ev -> call_of e <> C_AutoTokenizer n kw.
Proof.
  intros Htok Hk.
  pose (m := import_model model_name tag framework model_args tokenizer_kwds kwds).
  assert (forall config trust,
            exists msg,
              keywords [ {[ "config" := config ]}; {[ "trust_remote_code" := trust ]};
                         filter (fun kv : string * value => kv.1 ∈ hub_kwds_names)
                                (delete "trust_remote_code" (delete "config" kwds));
                         tokenizer_kwds ]
              = Raise (TypeError msg)) as Hclash.
  { intros config trust. destruct Hk as [->|[->|[Hk [v Hv]]]].
    - eapply (keywords_twice_raises _ 0 3); [done|done|done| |exact Htok].
      rewrite lookup_singleton_eq. by eexists.
    - eapply (keywords_twice_raises _ 1 3); [done|done|done| |exact Htok].
      rewrite lookup_singleton_eq. by eexists.
    - eapply (keywords_twice_raises _ 2 3); [done|done|done| |exact Htok].
      exists v. apply map_lookup_filter_Some. split; [|done].
      destruct (hub_name_not_reserved k Hk) as (? & ? & _).
      by rewrite !lookup_delete_ne. }
  assert (fails m) as Hfails.
  { subst m. unfold import_model. apply fails_bind_r. intros [config kwds'].
    do 5 (apply fails_bind_r; intros ?). apply fails_bind_r. intros model.
    apply fails_bind_liftR. intros kwt Hkwt.
    match type of Hkwt with
    | keywords [ {[ _ := ?c ]}; {[ _ := ?t ]}; _; _ ] = _ =>
        destruct (Hclash c t) as [msg Hmsg]
    end. congruence. }
  assert (every_call (fun c => (forall n kw, c <> C_AutoTokenizer n kw)
                               /\ is_save (Ev c true false) = false) m) as Hcalls.
  { subst m. unfold import_model. apply every_call_bind.
    { destruct (is_PretrainedConfig _); [apply every_call_ret|].
      apply every_call_bind_liftR. intros kw _. by apply every_call_call. }
    intros [config kwds']. apply every_call_bind.
    { destruct (MODEL_FOR_CAUSAL_LM_MAPPING config); [apply every_call_ret|].
      destruct (MODEL_FOR_SEQ_TO_SEQ_CAUSAL_LM_MAPPING config);
        [apply every_call_ret|apply every_call_raise]. }
    intros task_type.
    do 4 (apply every_call_bind_liftR; intros ? _).
    apply every_call_bind; [by apply every_call_call|]. intros model.
    apply every_call_bind_liftR. intros kwt Hkwt.
    match type of Hkwt with
    | keywords [ {[ _ := ?c ]}; {[ _ := ?t ]}; _; _ ] = _ =>
        destruct (Hclash c t) as [msg Hmsg]
    end. congruence. }
  fold m. destruct (runB m w) as [[r w'] ev] eqn:E.
  split; [by apply (Hfails _ _ _ _ E)|]. split.
  - apply count_none. intros e He. by apply (Hcalls _ _ _ _ _ E).
  - intros e n kw He. by apply (Hcalls _ _ _ _ _ E).
Qed.
End Calls.

(** ** The requests of a resolution *)

(** No event of a kind, none counted. *)
Lemma count_zero (p : Event -> bool) (ev : list Event) :
  (forall e, e ∈ ev -> p e = false) -> count p ev = 0.
Proof.
  induction ev as [|e ev IH]; intros H; [done|]. cbn [count].
  rewrite IH by (intros e' He'; apply H, elem_of_cons; by right).
  by rewrite (H e (proj2 (elem_of_cons _ _ _) (or_introl eq_refl))).
Qed.

Section Handle.
Context {World : Type} {backend : Backend World}.
Implicit Types (s : LLM World) (w : World).

(** The [except] branch, step by step: the call is refused with a
    [TypeError] before any routine runs, or the default routine runs (the
    handle then has no positional arguments), or the override of the class
    runs. *)
Lemma import_on_miss_run s tag tokenizer_kwds trust kwds w r w' ev :
  runB (import_on_miss s tag tokenizer_kwds trust kwds) w = (r, w', ev) ->
  (ev = [] /\ w' = w /\ exists msg, r = Raise (TypeError msg))
  \/ (exists body,
        import_model_method (class_of s) = None /\ _args s = []
        /\ runB (import_model (_pretrained s) tag (_implementation (class_of s)) []
                              tokenizer_kwds (<["trust_remote_code" := trust]> kwds)) w
           = (r, w', body)
        /\ ev = Ev (C_import_model false (_pretrained s) tag [] tokenizer_kwds
                                   (<["trust_remote_code" := trust]> kwds))
                   (is_Ok r) false :: map within_import body)
  \/ (exists f body,
        import_model_method (class_of s) = Some f
        /\ runB (f (_pretrained s) tag (_args s) tokenizer_kwds
                   (<["trust_remote_code" := trust]> kwds)) w
           = (r, w', body)
        /\ ev = Ev (C_import_model true (_pretrained s) tag (_args s) tokenizer_kwds
                                   (<["trust_remote_code" := trust]> kwds))
                   (is_Ok r) false :: map within_import body).
Proof.
  unfold import_on_miss.
  destruct (__dict__ s !! "import_model") as [v|].
  { run. intros H; injection H as <- <- <-. left. by eauto. }
  destruct (import_model_method (class_of s)) as [f|].
  - unfold call_override, explicit_keywords. run.
    destruct (bool_decide _).
    2:{ intros H; injection H as <- <- <-. left. by eauto. }
    destruct (runB (f _ _ _ _ _) w) as [[r0 w0] body] eqn:Hf.
    intros H; injection H as <- <- <-. right. right. by exists f, body.
  - unfold call_import_model, explicit_keywords. run.
    destruct (bool_decide _).
    2:{ intros H; injection H as <- <- <-. left. by eauto. }
    destruct (bool_decide _).
    2:{ intros H; injection H as <- <- <-. left. by eauto. }
    destruct (_args s) as [|a args].
    2:{ run. intros H; injection H as <- <- <-. left. by eauto. }
    run.
    destruct (runB (import_model _ _ _ _ _ _) w) as [[r0 w0] body] eqn:Hf.
    intros H; injection H as <- <- <-. right. left. by exists body.
Qed.

(** A first resolution, step by step. *)
Lemma bentomodel_steps s w :
  __bentomodel__ s = None ->
  let trust := default (__openllm_trust_remote_code__ (config s))
                       (_kwargs s !! "trust_remote_code") in
  let s1 := set__kwargs (delete "trust_remote_code" (_kwargs s)) s in
  match keywords [ {[ "prefix" := VStr (_implementation (class_of s)) ]};
                   {[ "trust_remote_code" := trust ]};
                   delete "trust_remote_code" (_kwargs s) ] with
  | Raise e => runM _bentomodel s w = Outcome (Raise e) s1 w []
  | Ok kw =>
      let requested := Ev (C_generate_tags (_pretrained s) kw) in
      match generate_tags (_pretrained s) kw w with
      | (Raise e, w1) =>
          runM _bentomodel s w = Outcome (Raise e) s1 w1 [requested false false]
      | (Ok (tag, kwds), w1) =>
          let p := partition_kwds (import_kwargs (class_of s)) kwds in
          match transformers_get tag w1 with
          | (Ok bm, w2) =>
              runM _bentomodel s w
              = Outcome (Ok bm) (set___bentomodel__ bm s1) w2
                        [requested true false; Ev (C_get tag) true false]
          | (Raise e, w2) =>
              if is_BentoMLException e then
                match runB (import_on_miss s1 tag p.1 trust p.2) w2 with
                | (r, w3, ev) =>
                    runM _bentomodel s w
                    = Outcome r
                              match r with
                              | Ok bm => set___bentomodel__ bm s1
                              | Raise _ => s1
                              end
                              w3
                              ([requested true false; Ev (C_get tag) false false] ++ ev)
                end
              else
                runM _bentomodel s w
                = Outcome (Raise e) s1 w2
                          [requested true false; Ev (C_get tag) false false]
          end
      end
  end.
Proof.
  intros Hnone trust s1. unfold _bentomodel. run. rewrite Hnone. run.
  fold trust. fold s1.
  destruct (keywords _) as [kw|e] eqn:Hkw; [|done].
  destruct (generate_tags (_pretrained s) kw w) as [[[tag kwds]|e] w1] eqn:Hgt; run;
    [|done].
  destruct (partition_kwds _ kwds) as [tokenizer_kwds kwds'] eqn:Hp. run.
  destruct (transformers_get tag w1) as [[bm|e] w2] eqn:Hget; run.
  - rewrite guard_bentomodel. by run.
  - destruct (is_BentoMLException e) eqn:He; [|done].
    cbn [fst snd].
    destruct (runB (import_on_miss s1 tag tokenizer_kwds _ kwds') w2)
      as [[r w3] ev] eqn:Himp.
    destruct r as [bm|e']; run; [|done].
    rewrite guard_bentomodel. run. by rewrite app_nil_r.
Qed.

(** The calls a first resolution makes itself: the request for a tag, the
    store lookup of that tag, and the import under that tag. *)
Lemma resolution_top_level s w e :
  __bentomodel__ s = None ->
  e ∈ events (runM _bentomodel s w) -> in_import e = false ->
  let trust := default (__openllm_trust_remote_code__ (config s))
                       (_kwargs s !! "trust_remote_code") in
  exists kw,
    keywords [ {[ "prefix" := VStr (_implementation (class_of s)) ]};
               {[ "trust_remote_code" := trust ]};
               delete "trust_remote_code" (_kwargs s) ] = Ok kw
    /\ (call_of e = C_generate_tags (_pretrained s) kw
        \/ exists tag kwds w1,
             generate_tags (_pretrained s) kw w = (Ok (tag, kwds), w1)
             /\ (call_of e = C_get tag
                 \/ exists ov,
                      call_of e
                      = C_import_model ov (_pretrained s) tag (_args s)
                          (partition_kwds (import_kwargs (class_of s)) kwds).1
                          (<["trust_remote_code" := trust]>
                             (partition_kwds (import_kwargs (class_of s)) kwds).2))).
Proof.
  intros Hnone He Hin trust. pose proof (bentomodel_steps s w Hnone) as Hrun.
  cbv zeta in Hrun. fold trust in Hrun.
  destruct (keywords _) as [kw|e0] eqn:Hkw.
  2:{ rewrite Hrun in He. by apply elem_of_nil in He. }
  exists kw. split; [done|].
  destruct (generate_tags (_pretrained s) kw w) as [[[tag kwds]|e0] w1] eqn:Hgt.
  2:{ rewrite Hrun in He. apply list_elem_of_singleton in He as ->. by left. }
  assert (forall (b : bool) (ev0 : list Event),
            e ∈ [Ev (C_generate_tags (_pretrained s) kw) true false;
                 Ev (C_get tag) b false] ++ ev0 ->
            e ∈ ev0 \/ call_of e = C_generate_tags (_pretrained s) kw
            \/ call_of e = C_get tag) as Hsplit.
  { intros b ev0 H. apply elem_of_app in H as [H|H]; [|by left].
    apply elem_of_cons in H as [->|H]; [right; by left|].
    apply list_elem_of_singleton in H as ->. right. by right. }
  destruct (transformers_get tag w1) as [[bm|e0] w2] eqn:Hget.
  { rewrite Hrun in He. destruct (Hsplit true [] He) as [H|[H|H]].
    - by apply elem_of_nil in H.
    - by left.
    - right. exists tag, kwds, w1. split; [done|]. by left. }
  destruct (is_BentoMLException e0).
  2:{ rewrite Hrun in He. destruct (Hsplit false [] He) as [H|[H|H]].
      - by apply elem_of_nil in H.
      - by left.
      - right. exists tag, kwds, w1. split; [done|]. by left. }
  destruct (runB (import_on_miss _ tag _ trust _) w2) as [[r w3] ev] eqn:Himp.
  rewrite Hrun in He. cbn [events] in He.
  destruct (Hsplit false ev He) as [H|[H|H]]; [|by left|].
  2:{ right. exists tag, kwds, w1. split; [done|]. by left. }
  right. exists tag, kwds, w1. split; [done|]. right.
  apply import_on_miss_run in Himp
    as [(-> & _)|[(body & Hm & Hargs & _ & ->)|(f & body & Hm & _ & ->)]].
  - by apply elem_of_nil in H.
  - apply elem_of_cons in H as [->|H].
    + exists false. cbn [call_of _pretrained _args set__kwargs] in *. by rewrite Hargs.
    + apply within_import_marked in H. congruence.
  - apply elem_of_cons in H as [->|H].
    + by exists true.
    + apply within_import_marked in H. congruence.
Qed.

(** X10.  The tag of a handle is requested for its pretrained name, with
    the framework as [prefix], with [trust_remote_code] taken from the
    handle's keyword arguments and, failing that, from the configuration,
    and with every other keyword argument of the handle as it is. *)
Theorem resolution_tag_request s w e p kw :
  __bentomodel__ s = None ->
  e ∈ events (runM _bentomodel s w) -> in_import e = false ->
  call_of e = C_generate_tags p kw ->
  p = _pretrained s
  /\ kw !! "prefix" = Some (VStr (_implementation (class_of s)))
  /\ kw !! "trust_remote_code"
     = Some (default (__openllm_trust_remote_code__ (config s))
                     (_kwargs s !! "trust_remote_code"))
  /\ forall k, k <> "prefix" -> k <> "trust_remote_code" -> kw !! k = _kwargs s !! k.
Proof.
  intros Hnone He Hin Hc.
  destruct (resolution_top_level s w e Hnone He Hin) as (kw' & Hkw & Hcases).
  rewrite Hc in Hcases.
  destruct Hcases as [[= -> ->]|(tag & kwds & w1 & _ & [[=]|[ov [=]]])].
  split; [done|].
  split; [eapply keywords_lookup; [exact Hkw| |apply lookup_singleton_eq]; in_list|].
  split; [eapply keywords_lookup; [exact Hkw| |apply lookup_singleton_eq]; in_list|].
  intros k Hk1 Hk2. destruct (kw' !! k) as [v|] eqn:Hv.
  - apply (keywords_lookup_inv _ _ _ _ Hkw) in Hv as (d & Hd & Hdk).
    repeat (apply elem_of_cons in Hd as [->|Hd]).
    + by rewrite lookup_singleton_ne in Hdk.
    + by rewrite lookup_singleton_ne in Hdk.
    + by rewrite lookup_delete_ne in Hdk.
    + by apply elem_of_nil in Hd.
  - destruct (_kwargs s !! k) as [v|] eqn:Hs; [|done].
    assert (kw' !! k = Some v) as Hv'; [|congruence].
    eapply (keywords_lookup _ _ (delete "trust_remote_code" (_kwargs s)));
      [exact Hkw|in_list|]. by rewrite lookup_delete_ne.
Qed.

(** X11.  A handle whose keyword arguments have an entry named [prefix]
    cannot be resolved: the request for the tag is a [TypeError] (the
    keyword is given twice), raised before the store or the backend is
    called; [trust_remote_code] is popped all the same. *)
Theorem resolution_prefix_clash s w :
  __bentomodel__ s = None -> is_Some (_kwargs s !! "prefix") ->
  exists msg,
    runM _bentomodel s w
    = Outcome (Raise (TypeError msg))
              (set__kwargs (delete "trust_remote_code" (_kwargs s)) s) w [].
Proof.
  intros Hnone Hp. pose proof (bentomodel_steps s w Hnone) as Hrun. cbv zeta in Hrun.
  match type of Hrun with
  | match keywords ?l with _ => _ end =>
      destruct (keywords_twice_raises l 0 2 _ _ "prefix" eq_refl eq_refl) as [msg Hmsg]
  end.
  - done.
  - rewrite lookup_singleton_eq. by eexists.
  - by rewrite lookup_delete_ne.
  - rewrite Hmsg in Hrun. by exists msg.
Qed.

(** X12.  The tag that is looked up in the store is the tag the import is
    called with; the import is called with the handle's pretrained name and
    positional arguments and with [trust_remote_code] as resolved for the
    tag request; and every save of the default routine is under that tag. *)
Theorem resolution_uses_one_tag s w e t :
  __bentomodel__ s = None ->
  e ∈ events (runM _bentomodel s w) -> in_import e = false -> call_of e = C_get t ->
  (forall e' ov p t' args tokenizer_kwds kwds,
     e' ∈ events (runM _bentomodel s w) -> in_import e' = false ->
     call_of e' = C_import_model ov p t' args tokenizer_kwds kwds ->
     t' = t /\ p = _pretrained s /\ args = _args s
     /\ kwds !! "trust_remote_code"
        = Some (default (__openllm_trust_remote_code__ (config s))
                        (_kwargs s !! "trust_remote_code")))
  /\ (import_model_method (class_of s) = None ->
      forall e' t' model objects,
        e' ∈ events (runM _bentomodel s w) ->
        call_of e' = C_save_model t' model objects -> t' = t).
Proof.
  intros Hnone He Hin Hc.
  destruct (resolution_top_level s w e Hnone He Hin) as (kw & Hkw & Hcases).
  rewrite Hc in Hcases.
  destruct Hcases as [[=]|(tag & kwds & w1 & Hgt & [[= ->]|[ov [=]]])].
  split.
  - intros e' ov p t' args tk kd He' Hin' Hc'.
    destruct (resolution_top_level s w e' Hnone He' Hin') as (kw' & Hkw' & Hcases).
    rewrite Hkw in Hkw'. injection Hkw' as <-. rewrite Hc', Hgt in Hcases.
    destruct Hcases as [[=]|(tag' & kwds' & w1' & [= <- <- <-] & [[=]|[ov' Hov]])].
    injection Hov as -> -> -> -> -> ->.
    repeat split; try done. apply lookup_insert_eq.
  - intros Hm e' t' model objects He' Hc'.
    pose proof (bentomodel_steps s w Hnone) as Hrun. cbv zeta in Hrun.
    rewrite Hkw, Hgt in Hrun.
    assert (forall ev0 : list Event,
              e' ∈ [Ev (C_generate_tags (_pretrained s) kw) true false;
                    Ev (C_get tag) false false] ++ ev0 -> e' ∈ ev0) as Hsplit.
    { intros ev0 H. apply elem_of_app in H as [H|H]; [|done].
      apply elem_of_cons in H as [->|H]; [discriminate Hc'|].
      apply list_elem_of_singleton in H as ->. discriminate Hc'. }
    destruct (transformers_get tag w1) as [[bm|e0] w2] eqn:Hget.
    { rewrite Hrun in He'. cbn [events] in He'.
      apply elem_of_cons in He' as [->|He']; [discriminate Hc'|].
      apply list_elem_of_singleton in He' as ->. discriminate Hc'. }
    destruct (is_BentoMLException e0).
    2:{ rewrite Hrun in He'. apply (Hsplit []) in He'. by apply elem_of_nil in He'. }
    destruct (runB (import_on_miss _ tag _ _ _) w2) as [[r w3] ev] eqn:Himp.
    rewrite Hrun in He'. apply Hsplit in He'.
    apply import_on_miss_run in Himp
      as [(-> & _)|[(body & _ & _ & Hbody & ->)|(f & body & Hf & _)]].
    + by apply elem_of_nil in He'.
    + apply elem_of_cons in He' as [->|He']; [discriminate Hc'|].
      apply list_elem_of_In, in_map_iff in He' as (e0' & <- & He0).
      apply list_elem_of_In in He0. cbn [within_import call_of] in Hc'.
      pose proof (import_model_calls _ _ _ _ _ _ _ _ _ _ _ Hbody He0) as Hp.
      rewrite Hc' in Hp. by destruct Hp as [-> _].
    + cbn [class_of set__kwargs] in Hf. congruence.
Qed.

(** ** Handles that cannot import *)

(** When the [except] branch cannot return a handle, a resolution returns
    one only from the store. *)
Lemma resolution_without_import s w (Q : list Event -> Prop) :
  __bentomodel__ s = None ->
  (forall tag kwds w2 r w3 ev,
     runB (import_on_miss (set__kwargs (delete "trust_remote_code" (_kwargs s)) s) tag
             (partition_kwds (import_kwargs (class_of s)) kwds).1
             (default (__openllm_trust_remote_code__ (config s))
                      (_kwargs s !! "trust_remote_code"))
             (partition_kwds (import_kwargs (class_of s)) kwds).2) w2 = (r, w3, ev) ->
     is_Ok r = false /\ Q ev) ->
  (forall bm, res (runM _bentomodel s w) = Ok bm ->
     exists tag, Ev (C_get tag) true false ∈ events (runM _bentomodel s w))
  /\ exists pre ev,
       events (runM _bentomodel s w) = pre ++ ev
       /\ (ev = [] \/ Q ev)
       /\ forall e, e ∈ pre ->
             (exists p kw r, e = Ev (C_generate_tags p kw) r false)
             \/ exists t r, e = Ev (C_get t) r false.
Proof.
  intros Hnone Himp. pose proof (bentomodel_steps s w Hnone) as Hrun. cbv zeta in Hrun.
  assert (forall p kw t (b1 b2 : bool) e,
            e ∈ [Ev (C_generate_tags p kw) b1 false; Ev (C_get t) b2 false] ->
            (exists p kw r, e = Ev (C_generate_tags p kw) r false)
            \/ exists t r, e = Ev (C_get t) r false) as Hpre.
  { intros p kw t b1 b2 e He. apply elem_of_cons in He as [->|He]; [left; by eauto|].
    apply list_elem_of_singleton in He as ->. right. by eauto. }
  destruct (keywords _) as [kw|e0].
  2:{ rewrite Hrun. split; [done|]. exists [], []. split; [done|]. split; [by left|].
      intros e He. by apply elem_of_nil in He. }
  destruct (generate_tags (_pretrained s) kw w) as [[[tag kwds]|e0] w1].
  2:{ rewrite Hrun. split; [done|]. eexists _, []. split; [by rewrite app_nil_r|].
      split; [by left|]. intros e He. apply list_elem_of_singleton in He as ->.
      left. by eauto. }
  destruct (transformers_get tag w1) as [[bm|e0] w2].
  { rewrite Hrun. split.
    - intros _ _. exists tag. cbn [events]. apply elem_of_cons. right.
      by apply list_elem_of_singleton.
    - eexists _, []. split; [by rewrite app_nil_r|]. split; [by left|]. apply Hpre. }
  destruct (is_BentoMLException e0).
  2:{ rewrite Hrun. split; [done|]. eexists _, []. split; [by rewrite app_nil_r|].
      split; [by left|]. apply Hpre. }
  destruct (runB (import_on_miss _ tag _ _ _) w2) as [[r w3] ev] eqn:Hmiss.
  apply Himp in Hmiss as [Hr HQ]. rewrite Hrun. split.
  - intros bm Hok. cbn [res] in Hok. subst r. discriminate Hr.
  - eexists _, ev. split; [done|]. split; [by right|]. apply Hpre.
Qed.

(** X13.  A handle constructed with positional arguments cannot use the
    default import routine: the first of them is bound to
    [__openllm_framework__], which the call also names, so the call is a
    [TypeError] and the routine is never entered.  Such a handle resolves
    only when its tag is in the store already, and never saves. *)
Theorem positional_arguments_block_default_import s w :
  __bentomodel__ s = None -> import_model_method (class_of s) = None -> _args s <> [] ->
  let o := runM _bentomodel s w in
  count is_import (events o) = 0
  /\ count is_save (events o) = 0
  /\ forall bm, res o = Ok bm -> exists tag, Ev (C_get tag) true false ∈ events o.
Proof.
  intros Hnone Hm Hargs o. subst o.
  destruct (resolution_without_import s w (fun ev => ev = []) Hnone)
    as (Hok & pre & ev & Hev & Hnil & Hpre).
  { intros tag kwds w2 r w3 ev Hrun.
    apply import_on_miss_run in Hrun
      as [(-> & _ & msg & ->)|[(body & _ & Ha & _)|(f & body & Hf & _)]]; [done| |].
    - cbn [_args set__kwargs] in Ha. done.
    - cbn [class_of set__kwargs] in Hf. congruence. }
  assert (ev = []) as -> by (by destruct Hnil). rewrite app_nil_r in Hev.
  split; [|split; [|exact Hok]]; rewrite Hev.
  - apply count_zero. intros e He.
    destruct (Hpre e He) as [(p & kw & r & ->)|(t & r & ->)]; done.
  - apply count_zero. intros e He.
    destruct (Hpre e He) as [(p & kw & r & ->)|(t & r & ->)]; done.
Qed.



(** A keyword that the call to the import routine names itself
    ([tokenizer_kwds], [trust_remote_code]) must not be among the model
    keywords. *)
Lemma import_on_miss_reserved_keyword s tag tokenizer_kwds trust kwds w k :
  k ∈ ["tokenizer_kwds"; "trust_remote_code"] -> is_Some (kwds !! k) ->
  exists msg,
    runB (import_on_miss s tag tokenizer_kwds trust kwds) w = (Raise (TypeError msg), w, []).
Proof.
  intros Hk [v Hv]. unfold import_on_miss.
  destruct (__dict__ s !! "import_model") as [v'|]; [by eexists|].
  assert (forall rest,
            explicit_keywords ("tokenizer_kwds" :: "trust_remote_code" :: rest) kwds
            = Raise (TypeError "got multiple values for keyword argument")) as Hrefused.
  { intros rest. unfold explicit_keywords. rewrite bool_decide_eq_false_2; [done|].
    intros Hall. rewrite Forall_forall in Hall.
    assert (kwds !! k = None) as Hnone; [|congruence].
    apply Hall. apply elem_of_cons in Hk as [->|Hk]; [in_list|].
    apply list_elem_of_singleton in Hk as ->. in_list. }
  destruct (import_model_method (class_of s)) as [f|].
  - unfold call_override. rewrite Hrefused. by eexists.
  - unfold call_import_model. rewrite Hrefused. by eexists.
Qed.

(** X15.  A class whose [import_kwargs] name [trust_remote_code] or
    [tokenizer_kwds] cannot import: the entry is merged into the model
    keywords, where it collides with the keyword of the same name in the
    call to the import routine.  The routine is never entered, nothing is
    saved, and a handle of the class resolves only from the store. *)
Theorem import_kwargs_reserved_keyword s w ik k :
  __bentomodel__ s = None -> import_kwargs (class_of s) = Some ik ->
  k ∈ ["tokenizer_kwds"; "trust_remote_code"] -> is_Some (ik !! k) ->
  let o := runM _bentomodel s w in
  count is_import (events o) = 0
  /\ count is_save (events o) = 0
  /\ forall bm, res o = Ok bm -> exists tag, Ev (C_get tag) true false ∈ events o.
Proof.
  intros Hnone Hik Hk [v Hv] o. subst o.
  assert (startswith _tokenizer_ k = false) as Hpre.
  { apply elem_of_cons in Hk as [->|Hk]; [done|].
    by apply list_elem_of_singleton in Hk as ->. }
  assert (dict_truthy (Some ik) = true) as Htruthy.
  { cbn [dict_truthy]. rewrite bool_decide_eq_false_2; [done|].
    intros ->. by rewrite lookup_empty in Hv. }
  destruct (resolution_without_import s w (fun ev => ev = []) Hnone)
    as (Hok & pre & ev & Hev & Hnil & Hpre').
  { intros tag kwds w2 r w3 ev Hrun.
    destruct (import_on_miss_reserved_keyword
                (set__kwargs (delete "trust_remote_code" (_kwargs s)) s) tag
                (partition_kwds (import_kwargs (class_of s)) kwds).1
                (default (__openllm_trust_remote_code__ (config s))
                         (_kwargs s !! "trust_remote_code"))
                (partition_kwds (import_kwargs (class_of s)) kwds).2 w2 k Hk)
      as [msg Hmsg].
    - rewrite Hik. unfold partition_kwds. rewrite Htruthy. cbn [snd].
      change (default (∅ : dict) (Some ik)) with ik.
      rewrite lookup_union, !model_scoped_lookup, Hpre, Hv.
      destruct (kwds !! k); by eexists.
    - rewrite Hmsg in Hrun. by injection Hrun as <- <- <-. }
  assert (ev = []) as -> by (by destruct Hnil). rewrite app_nil_r in Hev.
  split; [|split; [|exact Hok]]; rewrite Hev.
  - apply count_zero. intros e He.
    destruct (Hpre' e He) as [(p & kw & r & ->)|(t & r & ->)]; done.
  - apply count_zero. intros e He.
    destruct (Hpre' e He) as [(p & kw & r & ->)|(t & r & ->)]; done.
Qed.

(** ** The memo slots of the accessors *)

(** A resolution makes no load of its own. *)
Lemma bentomodel_no_load s w : count is_load (events (runM _bentomodel s w)) = 0.
Proof.
  destruct (__bentomodel__ s) as [bm|] eqn:Hb.
  { by rewrite (bentomodel_cached s w bm Hb). }
  apply count_zero. intros e He. unfold is_load.
  destruct (in_import e) eqn:Hin; [by destruct (call_of e)|].
  destruct (resolution_top_level s w e Hb He Hin)
    as (kw & _ & [->|(tag & kwds & w1 & _ & [->|[ov ->]])]); done.
Qed.

(** What a resolution that returns leaves on the instance. *)
Lemma bentomodel_ok_slots s w bm :
  res (runM _bentomodel s w) = Ok bm ->
  __bentomodel__ (self_after (runM _bentomodel s w)) = Some bm
  /\ __llm_model__ (self_after (runM _bentomodel s w)) = __llm_model__ s
  /\ __llm_tokenizer__ (self_after (runM _bentomodel s w)) = __llm_tokenizer__ s.
Proof.
  intros Hres. destruct (bentomodel_ok_state s w bm Hres) as [[Hb ->]|[_ ->]]; done.
Qed.

(** A resolution that raises, seen through the tokenizer accessor. *)
Lemma tokenizer_run_raise s w e :
  __llm_tokenizer__ s = VNone -> res (runM _bentomodel s w) = Raise e ->
  runM tokenizer s w
  = Outcome (Raise (if is_KeyError e
                    then OpenLLMException "Model does not have tokenizer." else e))
            (self_after (runM _bentomodel s w)) (world_after (runM _bentomodel s w))
            (events (runM _bentomodel s w)).
Proof.
  intros Ht Hres. unfold tokenizer. run. rewrite Ht. run.
  destruct (runM _bentomodel s w) as [r s1 w1 ev1]. cbn [res] in Hres. subst r.
  run. destruct (is_KeyError e); [|done]. by rewrite app_nil_r.
Qed.

(** X16.  The model accessor loads once: on a handle without a loaded
    model, a call that returns a model (other than [None]) has made exactly
    one load, and the next call returns the same model without any call and
    without changing the instance or the world. *)
Theorem model_memoized s w m :
  __llm_model__ s = VNone -> res (runM model s w) = Ok m -> m <> VNone ->
  let o1 := runM model s w in
  runM model (self_after o1) (world_after o1)
  = Outcome (Ok m) (self_after o1) (world_after o1) []
  /\ count is_load (events o1) = 1.
Proof.
  intros Hm Hres Hne o1. subst o1. rewrite (model_run s w Hm) in *.
  pose proof (bentomodel_no_load s w) as Hno.
  destruct (runM _bentomodel s w) as [[bm|e] s1 w1 ev1]; [|done].
  cbn [events] in Hno.
  destruct (load_model bm (_args s1) (_kwargs s1) w1) as [[m'|e] w2]; [|done].
  cbn [res] in Hres. injection Hres as ->. cbn [self_after world_after events]. split.
  - unfold model. run. by destruct m.
  - by rewrite count_app, Hno.
Qed.

(** X17.  The tokenizer accessor returns the [tokenizer] custom object of
    the resolved store handle, makes no call beyond those of the
    resolution, and memoizes: the next call returns the same tokenizer
    without any call and without changing the instance or the world. *)
Theorem tokenizer_memoized s w t :
  __llm_tokenizer__ s = VNone -> res (runM tokenizer s w) = Ok t -> t <> VNone ->
  let o1 := runM tokenizer s w in
  runM tokenizer (self_after o1) (world_after o1)
  = Outcome (Ok t) (self_after o1) (world_after o1) []
  /\ events o1 = events (runM _bentomodel s w)
  /\ exists bm, res (runM _bentomodel s w) = Ok bm
               /\ bentoml.custom_objects bm !! "tokenizer" = Some t.
Proof.
  intros Ht Hres Hne o1. subst o1.
  destruct (res (runM _bentomodel s w)) as [bm|e] eqn:Hbm.
  2:{ rewrite (tokenizer_run_raise s w e Ht Hbm) in Hres. discriminate Hres. }
  destruct (bentoml.custom_objects bm !! "tokenizer") as [t'|] eqn:Hco.
  2:{ by rewrite (tokenizer_run_missing s w bm Ht Hbm Hco) in Hres. }
  rewrite (tokenizer_run_present s w bm t' Ht Hbm Hco) in *.
  cbn [res] in Hres. injection Hres as ->.
  cbn [self_after world_after events]. split; [|split; [done|by exists bm]].
  unfold tokenizer. run. by destruct t.
Qed.

(** X18.  The [try] of the tokenizer accessor spans the resolution of the
    artifact: a [KeyError] raised while resolving (by the import routine,
    say) is reported as the missing-tokenizer [OpenLLMException], although
    no store handle was obtained; any other exception passes through.  The
    model accessor raises the original exception in both cases. *)
Theorem tokenizer_masks_key_error s w e :
  __llm_tokenizer__ s = VNone -> res (runM _bentomodel s w) = Raise e ->
  res (runM tokenizer s w)
  = Raise (if is_KeyError e then OpenLLMException "Model does not have tokenizer." else e)
  /\ events (runM tokenizer s w) = events (runM _bentomodel s w)
  /\ (__llm_model__ s = VNone -> res (runM model s w) = Raise e).
Proof.
  intros Ht Hres. rewrite (tokenizer_run_raise s w e Ht Hres).
  split; [done|]. split; [done|].
  intros Hm. rewrite (model_run s w Hm).
  destruct (runM _bentomodel s w) as [r s1 w1 ev1]. cbn [res] in Hres. by subst r.
Qed.

(** X19.  The two accessors share one resolution.  On a new handle, after
    the model accessor returned, the tokenizer accessor makes no call at
    all; after the tokenizer accessor returned, the model accessor makes
    one call, the load. *)
Theorem accessors_share_resolution s w :
  __llm_model__ s = VNone -> __llm_tokenizer__ s = VNone ->
  let om := runM model s w in
  let ot := runM tokenizer s w in
  (forall m, res om = Ok m ->
     events (runM tokenizer (self_after om) (world_after om)) = []
     /\ world_after (runM tokenizer (self_after om) (world_after om)) = world_after om)
  /\ (forall t, res ot = Ok t ->
       exists bm args kw r,
         events (runM model (self_after ot) (world_after ot))
         = [Ev (C_load_model bm args kw) r false]
         /\ res (runM _bentomodel s w) = Ok bm).
Proof.
  intros Hm Ht om ot. subst om ot. split.
  - intros m Hres. rewrite (model_run s w Hm) in *.
    destruct (res (runM _bentomodel s w)) as [bm|e] eqn:Hbm.
    2:{ destruct (runM _bentomodel s w) as [r s1 w1 ev1]. cbn [res] in Hbm. by subst r. }
    destruct (bentomodel_ok_slots s w bm Hbm) as (Hb & _ & Ht').
    destruct (runM _bentomodel s w) as [r s1 w1 ev1]. cbn [res self_after] in *. subst r.
    destruct (load_model bm (_args s1) (_kwargs s1) w1) as [[m'|e] w2]; [|done].
    cbn [self_after world_after].
    unfold tokenizer. run. rewrite Ht', Ht. run.
    rewrite (bentomodel_cached (set___llm_model__ m' s1) w2 bm Hb). run.
    destruct (bentoml.custom_objects bm !! "tokenizer") as [t|]; run; [|done].
    rewrite guard_llm_tokenizer. by run.
  - intros t Hres.
    destruct (res (runM _bentomodel s w)) as [bm|e] eqn:Hbm.
    2:{ rewrite (tokenizer_run_raise s w e Ht Hbm) in Hres. discriminate Hres. }
    destruct (bentoml.custom_objects bm !! "tokenizer") as [t'|] eqn:Hco.
    2:{ by rewrite (tokenizer_run_missing s w bm Ht Hbm Hco) in Hres. }
    rewrite (tokenizer_run_present s w bm t' Ht Hbm Hco).
    cbn [self_after world_after].
    destruct (bentomodel_ok_slots s w bm Hbm) as (Hb & Hm' & _).
    rewrite model_run by (cbn [__llm_model__ set___llm_tokenizer__]; congruence).
    rewrite (bentomodel_cached _ _ bm) by done.
    destruct (load_model bm _ _ _) as [[m|e] w2];
      cbn [events app]; by eexists bm, _, _, _.
Qed.

(** ** Construction and runners *)

(** X20.  A pretrained name given to the constructor is kept as it is,
    the empty name included: neither the environment variable of the
    family nor the class's [default_model] is consulted, so construction
    succeeds whenever the configuration step does, in any world and for a
    class without default model. *)
Theorem explicit_pretrained_kept cls p llm_config args kwargs w cfg kw :
  init_config cls llm_config kwargs = Ok (cfg, kw) ->
  runB (__init__ cls (Some p) llm_config args kwargs) w
  = (Ok (mkLLM cls cfg p args kw None VNone VNone ∅), w, []).
Proof. intros Hcfg. by rewrite init_run, Hcfg. Qed.

(** X21.  What the constructor keeps.  With [llm_config], that object is
    the configuration and every keyword argument is kept for the model;
    without, the configuration is built by [config_class] from the keyword
    arguments, and what is kept for the model are the extras of that
    configuration, the keywords it did not consume.  The positional
    arguments are kept in both cases. *)
Theorem init_keeps cls pretrained llm_config args kwargs w o :
  (runB (__init__ cls pretrained llm_config args kwargs) w).1.1 = Ok o ->
  class_of o = cls /\ _args o = args
  /\ match llm_config with
     | Some c => config o = c /\ _kwargs o = kwargs
     | None => config_class cls kwargs = Ok (config o)
               /\ __pydantic_extra__ (config o) = Some (_kwargs o)
     end.
Proof.
  rewrite init_run. unfold init_config.
  destruct llm_config as [c|].
  - destruct (setattr_guard "config"); [|done].
    destruct (match pretrained with Some p => _ | None => _ end) as [p|e]; [|done].
    by intros [= <-].
  - destruct (config_class cls kwargs) as [c|e]; [|done].
    destruct (setattr_guard "config"); [|done].
    destruct (__pydantic_extra__ c) as [extra|] eqn:Hextra; [|done].
    destruct (match pretrained with Some p => _ | None => _ end) as [p|e]; [|done].
    by intros [= <-].
Qed.

(** X22.  Building a runner is a resolution of the artifact and nothing
    more: the same calls, the same effect on the instance and the world;
    it raises exactly when the resolution raises, with the same exception;
    otherwise the runner carries the caller's models followed by the
    resolved artifact, and the name ["llm-<start name>-runner"] unless the
    caller gave one. *)
Theorem to_runner_resolves given_name given_models max_batch_size max_latency_ms method_configs
    embedded scheduling_strategy kwargs s w :
  let o := runM (to_runner given_name given_models max_batch_size max_latency_ms method_configs
                           embedded scheduling_strategy kwargs) s w in
  let ob := runM _bentomodel s w in
  events o = events ob /\ self_after o = self_after ob /\ world_after o = world_after ob
  /\ match res ob with
     | Raise e => res o = Raise e
     | Ok bm =>
         exists r, res o = Ok r
                   /\ models r = default [] given_models ++ [bm]
                   /\ name r
                      = default ("llm-" +:+ __openllm_start_name__ (config s) +:+ "-runner")
                                given_name
                   /\ runnable_init_params r = kwargs
     end.
Proof.
  unfold to_runner. run.
  destruct (runM _bentomodel s w) as [[bm|e] s1 w1 ev1]; run; [|done].
  destruct (method_signatures method_configs) as [[mc g] gi]. run.
  rewrite app_nil_r. repeat split. by eexists.
Qed.

(** ** What a failed [generate] leaves behind *)

(** X28.  When the model accessor returns, [ChatGLM.generate] calls the
    conversion method on the model ([half] or [cuda] with CUDA, [float]
    without) before it raises: the trace is that of the accessor followed
    by this one call, and the instance is left as the accessor left it:
    the loaded model is memoized, the value the method returned is not
    stored. *)
Theorem generate_keeps_loaded_model respond prompt kwargs s w m :
  res (runM model s w) = Ok m ->
  let o := runM (ChatGLM_generate respond prompt kwargs) s w in
  let om := runM model s w in
  let method :=
    if cuda_is_available w
    then (if use_half_precision (config s) then "half" else "cuda")
    else "float" in
  self_after o = self_after om
  /\ is_Ok (res o) = false
  /\ exists r, events o = events om ++ [Ev (C_method method m []) r false].
Proof.
  intros Hres. unfold ChatGLM_generate, convert_model, assign. run.
  destruct (cuda_is_available w); [destruct (use_half_precision (config s))|];
    run;
    (destruct (runM model s w) as [r s1 w1 ev1]; cbn [res] in Hres; subst r; run);
    (destruct (call_method _ m [] w1) as [[m'|e] w2]; run;
     [rewrite guard_model; run; rewrite ?app_nil_r|]);
    (split; [done|]; split; [done|]; by eexists).
Qed.
End Handle.

(** ** Class creation *)

(** X23.  The three framework variants of an internal family share one
    configuration class: a PyTorch class [<Base>], a TensorFlow class
    [TF<Base>] and a Flax class [Flax<Base>] that declare none all receive
    the class registered as [<Base>Config], and its start name. *)
Theorem framework_variants_share_config (openllm : gmap string ConfigClass)
    (base : string) (c : ConfigClass) :
  openllm !! (base +:+ "Config") = Some c ->
  __init_subclass__ openllm base None "pt" true = Ok ("pt", c, class_start_name c)
  /\ __init_subclass__ openllm ("TF" +:+ base) None "tf" true
     = Ok ("tf", c, class_start_name c)
  /\ __init_subclass__ openllm ("Flax" +:+ base) None "flax" true
     = Ok ("flax", c, class_start_name c).
Proof.
  intros Hc. unfold __init_subclass__, config_class_name. cbn [negb andb].
  change (String.eqb "pt" "tf") with false. change (String.eqb "pt" "flax") with false.
  change (String.eqb "tf" "tf") with true. change (String.eqb "flax" "tf") with false.
  change (String.eqb "flax" "flax") with true.
  change (str_drop 2 ("TF" +:+ base)) with base.
  change (str_drop 4 ("Flax" +:+ base)) with base.
  cbv beta iota. by rewrite Hc.
Qed.

(** X24.  A class that declares its [config_class] keeps it, whatever the
    package registers and whether the class is internal or not.  A class
    that declares none is refused with the [RuntimeError] when it is not
    internal, before the package is looked at; an internal one fails with
    [AttributeError] when the package has no class of the expected name. *)
Theorem init_subclass_config_class (openllm : gmap string ConfigClass)
    (__name__ implementation : string) (_internal : bool) :
  (forall c, __init_subclass__ openllm __name__ (Some c) implementation _internal
             = Ok (implementation, c, class_start_name c))
  /\ (_internal = false ->
      __init_subclass__ openllm __name__ None implementation _internal
      = Raise (OtherError "RuntimeError: 'config_class' must be defined for LLM subclasses."))
  /\ (_internal = true ->
      openllm !! config_class_name implementation __name__ = None ->
      __init_subclass__ openllm __name__ None implementation _internal
      = Raise (AttributeError (config_class_name implementation __name__))).
Proof.
  unfold __init_subclass__. split; [|split].
  - intros c. rewrite bool_decide_eq_false_2 by done. by rewrite andb_false_r.
  - by intros ->.
  - intros -> Hnone. cbn [negb andb]. by rewrite Hnone.
Qed.

(** ** Task types *)

Lemma str_map_compose (f g : ascii -> ascii) (s : string) :
  str_map f (str_map g s) = str_map (fun c => f (g c)) s.
Proof. induction s as [|c s IH]; cbn [str_map]; [done|]. by rewrite IH. Qed.

Lemma str_map_ext (f g : ascii -> ascii) (s : string) :
  (forall c, f c = g c) -> str_map f s = str_map g s.
Proof.
  intros H. induction s as [|c s IH]; cbn [str_map]; [done|]. by rewrite H, IH.
Qed.

(** X25.  Task names are looked up without regard to case and to the choice
    between ["-"] and ["_"]: a key, its upper-case form and its forms with
    one separator replaced by the other all give the same member or all
    fail; a key that names no member raises [OpenLLMException]. *)
Theorem TaskType_getitem_normalises (key : string) :
  TaskType_getitem (upper key) = TaskType_getitem key
  /\ TaskType_getitem (replace_char "-" "_" key) = TaskType_getitem key
  /\ TaskType_getitem (replace_char "_" "-" key) = TaskType_getitem key
  /\ forall e, TaskType_getitem key = Raise e -> exists msg, e = OpenLLMException msg.
Proof.
  unfold TaskType_getitem, upper, replace_char.
  split; [|split; [|split]].
  - rewrite !str_map_compose.
    rewrite (str_map_ext _ (fun c => ascii_upper (if Ascii.eqb c "-" then "_"%char else c)));
      [done|].
    intros [[] [] [] [] [] [] [] []]; vm_compute; reflexivity.
  - rewrite !str_map_compose.
    rewrite (str_map_ext _ (fun c => ascii_upper (if Ascii.eqb c "-" then "_"%char else c)));
      [done|].
    intros [[] [] [] [] [] [] [] []]; vm_compute; reflexivity.
  - rewrite !str_map_compose.
    rewrite (str_map_ext _ (fun c => ascii_upper (if Ascii.eqb c "-" then "_"%char else c)));
      [done|].
    intros [[] [] [] [] [] [] [] []]; vm_compute; reflexivity.
  - intros e. rewrite !str_map_compose.
    destruct (String.eqb _ "TEXT_GENERATION"); [done|].
    destruct (String.eqb _ "TEXT2TEXT_GENERATION"); [done|].
    intros [= <-]. by eexists.
Qed.

(** ** The logits processor *)





(** X27.  On a tensor with an invalid entry whose last dimension has no
    index 5, the processor raises [IndexError], and the tensor has been
    zeroed in place all the same. *)
Theorem processor_short_rows (scores : list (list score)) (V : nat) :
  any_invalid scores = true ->
  Forall (fun row => length row = V) scores -> (V <= 5)%nat ->
  InvalidScoreLogitsProcessor_call scores
  = (Raise (OtherError "IndexError"), map (map (fun _ => zero)) scores).
Proof.
  intros Hinv Hrect HV. unfold InvalidScoreLogitsProcessor_call. rewrite Hinv.
  destruct (forallb _ _) eqn:Hlen; [exfalso|done].
  destruct scores as [|row scores]; [discriminate Hinv|].
  cbn [map forallb] in Hlen. apply andb_true_iff in Hlen as [Hlen _].
  apply Nat.ltb_lt in Hlen. rewrite length_map in Hlen.
  apply Forall_cons in Hrect as [Hrow _]. lia.
Qed.

(** ** The import routine at concrete inputs *)

Lemma model_call_made :
  model_call ∈ (runB (import_model flan_small flan_small "pt" [] tokenizer_request
                                   model_request) empty_world).2.
Proof. apply list_elem_of_In. vm_compute. right. left. reflexivity. Qed.

Lemma config_call_made :
  config_call ∈ (runB (import_model flan_small flan_small "pt" [] tokenizer_request
                                    model_request) empty_world).2.
Proof. apply list_elem_of_In. vm_compute. left. reflexivity. Qed.

Lemma tokenizer_call_made :
  tokenizer_call ∈ (runB (import_model flan_small flan_small "pt" [] tokenizer_request
                                       model_request) empty_world).2.
Proof. apply list_elem_of_In. vm_compute. right. right. left. reflexivity. Qed.

Lemma pinned_model_call_made :
  pinned_model_call ∈ (runB (import_model flan_small flan_small "tf" [] tokenizer_request
                                          pinned_request) empty_world).2.
Proof. apply list_elem_of_In. vm_compute. left. reflexivity. Qed.

Lemma import_model_forwards_trust_remote_code_witness :
  model_keywords !! "trust_remote_code" = Some (VBool true).
Proof.
  exact (import_model_forwards_trust_remote_code
           flan_small flan_small "pt" [] tokenizer_request model_request empty_world
           model_call model_keywords model_call_made eq_refl).
Defined.

Lemma import_model_forwards_hub_keywords_witness :
  pinned_model_keywords !! "revision" = Some (VStr "main").
Proof.
  apply (import_model_forwards_hub_keywords
           flan_small flan_small "tf" [] tokenizer_request pinned_request empty_world
           pinned_model_call pinned_model_keywords "revision" (VStr "main")
           pinned_model_call_made eq_refl); [by_evaluation | reflexivity].
Defined.

Lemma import_model_auto_class_witness :
  exists config classes,
    model_keywords !! "config" = Some config
    /\ _return_tensors_to_framework_map !! "pt" = Some classes
    /\ classes !! (if MODEL_FOR_CAUSAL_LM_MAPPING config then 0 else 1)%nat
       = Some "AutoModelForCausalLM".
Proof.
  destruct (import_model_auto_class
              flan_small flan_small "pt" [] tokenizer_request model_request empty_world
              model_call "AutoModelForCausalLM" flan_small [] model_keywords
              model_call_made eq_refl)
    as (_ & _ & config & classes & Hcfg & Hfw & _ & Hcls).
  by exists config, classes.
Defined.

Lemma import_model_tokenizer_keywords_witness :
  tokenizer_keywords !! "padding_side" = Some (VStr "left")
  /\ tokenizer_keywords !! "device_map" = None.
Proof.
  destruct (import_model_tokenizer_keywords
              flan_small flan_small "pt" [] tokenizer_request model_request empty_world
              tokenizer_call flan_small tokenizer_keywords tokenizer_call_made eq_refl)
    as (_ & Hall & Honly).
  split; [by apply Hall|].
  rewrite Honly; [reflexivity | done | done | by_evaluation].
Defined.

Lemma import_model_given_config_witness :
  pinned_model_keywords !! "config" = Some (VPretrainedConfig 7)
  /\ pinned_model_keywords !! "device_map" = Some (VStr "auto").
Proof.
  destruct (import_model_given_config
              flan_small flan_small "tf" [] tokenizer_request pinned_request
              (VPretrainedConfig 7) empty_world pinned_model_call pinned_model_keywords
              eq_refl eq_refl pinned_model_call_made eq_refl)
    as (_ & Hcfg & Hall).
  split; [exact Hcfg|].
  by apply (Hall "TFAutoModelForCausalLM" flan_small [] eq_refl).
Defined.

Lemma import_model_config_lookup_witness :
  config_keywords !! "return_unused_kwargs" = Some (VBool true)
  /\ config_keywords !! "torch_dtype" <> Some (VStr "auto")
  /\ config_keywords !! "device_map" = Some (VStr "auto").
Proof.
  destruct (import_model_config_lookup
              flan_small flan_small "pt" [] tokenizer_request model_request empty_world
              config_call flan_small config_keywords config_call_made eq_refl)
    as (_ & _ & Hr & Hd & Hall).
  split; [exact Hr|]. split; [exact Hd|].
  by apply Hall.
Defined.

Lemma import_model_unknown_framework_witness :
  let '(r, _, ev) :=
    runB (import_model flan_small flan_small "jax" [] tokenizer_request model_request)
         empty_world in
  is_Ok r = false
  /\ forall e, e ∈ ev -> exists n kw, call_of e = C_AutoConfig n kw.
Proof.
  apply (import_model_unknown_framework
           flan_small flan_small "jax" [] tokenizer_request model_request empty_world).
  vm_compute. reflexivity.
Defined.

Lemma import_model_tokenizer_keyword_clash_witness :
  let '(r, _, ev) :=
    runB (import_model flan_small flan_small "pt" []
                       {[ "trust_remote_code" := VBool true ]} model_request)
         empty_world in
  is_Ok r = false
  /\ count is_save ev = 0
  /\ forall e n kw, e ∈ ev -> call_of e <> C_AutoTokenizer n kw.
Proof.
  apply (import_model_tokenizer_keyword_clash
           flan_small flan_small "pt" [] {[ "trust_remote_code" := VBool true ]}
           model_request empty_world "trust_remote_code").
  - rewrite lookup_singleton_eq. by eexists.
  - right. by left.
Defined.

(** ** Resolutions at concrete inputs *)

Lemma tag_call_made : tag_call ∈ events (runM _bentomodel mapped_instance empty_world).
Proof. apply list_elem_of_In. vm_compute. left. reflexivity. Qed.

Lemma resolution_tag_request_witness :
  tag_keywords !! "prefix" = Some (VStr "pt")
  /\ tag_keywords !! "trust_remote_code" = Some (VBool false)
  /\ tag_keywords !! "device_map" = Some (VStr "auto").
Proof.
  destruct (resolution_tag_request mapped_instance empty_world tag_call flan_small
              tag_keywords eq_refl tag_call_made eq_refl eq_refl)
    as (_ & Hprefix & Htrust & Hrest).
  split; [exact Hprefix|]. split; [exact Htrust|].
  rewrite (Hrest "device_map"); [reflexivity | done | done].
Defined.

Lemma resolution_prefix_clash_witness :
  let o := runM _bentomodel (new_instance FlanT5 flan_small {[ "prefix" := VStr "tf" ]})
                empty_world in
  (exists msg, res o = Raise (TypeError msg)) /\ events o = [].
Proof.
  destruct (resolution_prefix_clash
              (new_instance FlanT5 flan_small {[ "prefix" := VStr "tf" ]}) empty_world
              eq_refl) as [msg Hmsg]; [by_evaluation|].
  cbv zeta. rewrite Hmsg. split; [by exists msg|reflexivity].
Defined.

Lemma lookup_made :
  Ev (C_get flan_small) false false ∈ events (runM _bentomodel mapped_instance empty_world).
Proof. apply list_elem_of_In. vm_compute. right. left. reflexivity. Qed.

Lemma import_call_made :
  import_call ∈ events (runM _bentomodel mapped_instance empty_world).
Proof. apply list_elem_of_In. vm_compute. right. right. left. reflexivity. Qed.

Lemma resolution_uses_one_tag_witness :
  import_keywords !! "trust_remote_code" = Some (VBool false).
Proof.
  destruct (proj1 (resolution_uses_one_tag mapped_instance empty_world
                     (Ev (C_get flan_small) false false) flan_small
                     eq_refl lookup_made eq_refl eq_refl)
                  import_call false flan_small flan_small [] ∅ import_keywords
                  import_call_made eq_refl eq_refl)
    as (_ & _ & _ & Htrust).
  exact Htrust.
Defined.

Lemma positional_arguments_block_default_import_witness :
  let o := runM _bentomodel positional_instance empty_world in
  count is_import (events o) = 0
  /\ count is_save (events o) = 0
  /\ forall bm, res o = Ok bm -> exists tag, Ev (C_get tag) true false ∈ events o.
Proof.
  apply (positional_arguments_block_default_import positional_instance empty_world);
    [reflexivity | reflexivity | discriminate].
Defined.


Lemma import_kwargs_reserved_keyword_witness :
  let o := runM _bentomodel (new_instance Trusting "trusting/base" ∅) empty_world in
  count is_import (events o) = 0
  /\ count is_save (events o) = 0
  /\ forall bm, res o = Ok bm -> exists tag, Ev (C_get tag) true false ∈ events o.
Proof.
  apply (import_kwargs_reserved_keyword
           (new_instance Trusting "trusting/base" ∅) empty_world
           {[ "trust_remote_code" := VBool true ]} "trust_remote_code");
    [reflexivity | reflexivity | by_evaluation | by_evaluation].
Defined.

(** ** The accessors at concrete inputs *)

Lemma model_memoized_witness :
  let o1 := runM model (new_instance FlanT5 flan_small ∅) (world_with stored_handle) in
  runM model (self_after o1) (world_after o1)
  = Outcome (Ok (VObj 1)) (self_after o1) (world_after o1) []
  /\ count is_load (events o1) = 1.
Proof.
  apply (model_memoized (new_instance FlanT5 flan_small ∅) (world_with stored_handle)
                        (VObj 1)); [reflexivity | vm_compute; reflexivity | discriminate].
Defined.

Lemma tokenizer_memoized_witness :
  let o1 := runM tokenizer (new_instance FlanT5 flan_small ∅) (world_with stored_handle) in
  runM tokenizer (self_after o1) (world_after o1)
  = Outcome (Ok (VObj 3)) (self_after o1) (world_after o1) [].
Proof.
  apply (tokenizer_memoized (new_instance FlanT5 flan_small ∅) (world_with stored_handle)
                            (VObj 3)); [reflexivity | vm_compute; reflexivity | discriminate].
Defined.

(** The import of a [JaxFlan] handle raises [KeyError] for the framework;
    the tokenizer accessor reports a missing tokenizer. *)
Lemma tokenizer_masks_key_error_witness :
  res (runM tokenizer (new_instance JaxFlan flan_small ∅) empty_world)
  = Raise (OpenLLMException "Model does not have tokenizer.")
  /\ res (runM model (new_instance JaxFlan flan_small ∅) empty_world)
     = Raise (KeyError "jax").
Proof.
  destruct (tokenizer_masks_key_error (new_instance JaxFlan flan_small ∅) empty_world
              (KeyError "jax") eq_refl) as (Ht & _ & Hm).
  - vm_compute. reflexivity.
  - split; [exact Ht | exact (Hm eq_refl)].
Defined.

Lemma accessors_share_resolution_witness :
  let om := runM model (new_instance FlanT5 flan_small ∅) (world_with stored_handle) in
  events (runM tokenizer (self_after om) (world_after om)) = []
  /\ world_after (runM tokenizer (self_after om) (world_after om)) = world_after om.
Proof.
  apply (proj1 (accessors_share_resolution (new_instance FlanT5 flan_small ∅)
                  (world_with stored_handle) eq_refl eq_refl) (VObj 1)).
  vm_compute. reflexivity.
Defined.

(** ** Construction, class creation and the processor at concrete inputs *)

(** An explicit empty name on a class without default model. *)
Lemma explicit_pretrained_kept_witness :
  runB (__init__ Nameless (Some EmptyString) None [] ∅) empty_world
  = (Ok (mkLLM Nameless
               (mkConfig "nameless" "nameless" (VBool false) (Some ∅) false false)
               EmptyString [] ∅ None VNone VNone ∅),
     empty_world, []).
Proof.
  apply (explicit_pretrained_kept Nameless EmptyString None [] ∅ empty_world). reflexivity.
Defined.

Lemma init_keeps_witness :
  config_class FlanT5 caller_kwds
  = Ok (mkConfig "flan_t5" "flan-t5" (VBool false) (Some caller_kwds) false false).
Proof.
  destruct (init_keeps FlanT5 (Some flan_small) None [VInt 1] caller_kwds empty_world
              (mkLLM FlanT5
                     (mkConfig "flan_t5" "flan-t5" (VBool false) (Some caller_kwds)
                               false false)
                     flan_small [VInt 1] caller_kwds None VNone VNone ∅) eq_refl)
    as (_ & _ & Hcfg & _).
  exact Hcfg.
Defined.

Lemma framework_variants_share_config_witness :
  __init_subclass__ package "FlanT5" None "pt" true = Ok ("pt", FlanT5Config, "flan-t5")
  /\ __init_subclass__ package "TFFlanT5" None "tf" true
     = Ok ("tf", FlanT5Config, "flan-t5")
  /\ __init_subclass__ package "FlaxFlanT5" None "flax" true
     = Ok ("flax", FlanT5Config, "flan-t5").
Proof.
  apply (framework_variants_share_config package "FlanT5" FlanT5Config). reflexivity.
Defined.


Lemma processor_short_rows_witness :
  InvalidScoreLogitsProcessor_call short_scores
  = (Raise (OtherError "IndexError"), [[zero; zero]]).
Proof.
  apply (processor_short_rows short_scores 2); [reflexivity | | lia].
  repeat constructor.
Defined.

Lemma generate_keeps_loaded_model_witness :
  let o := runM (ChatGLM_generate answer "hello" ∅) chatglm_instance
                (world_with chatglm_handle) in
  let om := runM model chatglm_instance (world_with chatglm_handle) in
  self_after o = self_after om
  /\ is_Ok (res o) = false
  /\ exists r, events o = events om ++ [Ev (C_method "float" (VObj 1) []) r false].
Proof.
  assert (res (runM model chatglm_instance (world_with chatglm_handle)) = Ok (VObj 1))
    as Hloaded by (vm_compute; reflexivity).
  exact (generate_keeps_loaded_model answer "hello" ∅ chatglm_instance
                                     (world_with chatglm_handle) (VObj 1) Hloaded).
Defined.
